(** * The Elm notebook kernel: cell accumulation and compile trigger

    A shallow embedding of [elm_kernel/kernel.py] (class [ElmKernel]) and
    the properties of its cell-accumulation and compile-trigger protocol.

    The kernel object and the part of the world it touches (the scratch
    directory, the output channel, the processes it starts) form one
    explicit state; a method is a computation that takes that state and
    gives back either a value or a raised exception, with the new state.
    What the collaborators do (the copy of the manifest, the write of the
    input file, the external compiler) is given by an environment of
    oracles, so every theorem holds for every behaviour they can show. *)

From Stdlib Require Import ZArith Ascii String DecimalString.
From Stdlib Require DecimalZ DecimalPos.
From stdpp Require Import base option list gmap strings.

Local Open Scope string_scope.
Local Open Scope list_scope.

(** ** Python primitives used by the kernel *)

Module Py.

(** The line feed, the only line terminator that [io.StringIO] (created
    with its default [newline] argument) recognises when iterated. *)
Definition LF : ascii := ascii_of_nat 10.
Definition nl : string := String LF EmptyString.
Definition dquote : string := String (ascii_of_nat 34) EmptyString.
Definition CR : ascii := ascii_of_nat 13.

(** Iterating [io.StringIO(text)]: the lines of [text], each one keeping
    its terminator; [cur] is the line read so far. *)
Fixpoint readlines_from (cur text : string) : list string :=
  match text with
  | EmptyString => match cur with EmptyString => [] | _ => [cur] end
  | String c rest =>
      if Ascii.eqb c LF
      then (cur +:+ nl) :: readlines_from EmptyString rest
      else readlines_from (cur +:+ String c EmptyString) rest
  end.

Definition StringIO_lines (text : string) : list string :=
  readlines_from EmptyString text.

(** [collections.deque(iterable, 1)]: every append to a full deque of
    maximal length 1 drops the element it holds, so the last one stays. *)
Definition deque_append1 {A} (d : list A) (x : A) : list A := [x].

Definition deque1 {A} (iterable : list A) : list A :=
  fold_left deque_append1 iterable [].

(** [sep.join(parts)]. *)
Fixpoint join (sep : string) (parts : list string) : string :=
  match parts with
  | [] => EmptyString
  | [p] => p
  | p :: ps => p +:+ sep +:+ join sep ps
  end.

(** [str(n)] for an integer. *)
Definition str_int (n : Z) : string := NilZero.string_of_int (Z.to_int n).

(** [os.path.join(a, b)] on a POSIX system. *)
Definition startswith_sep (p : string) : bool :=
  match p with String c _ => Ascii.eqb c "/" | EmptyString => false end.

Fixpoint endswith_sep (p : string) : bool :=
  match p with
  | EmptyString => false
  | String c EmptyString => Ascii.eqb c "/"
  | String _ r => endswith_sep r
  end.

Definition os_path_join (a b : string) : string :=
  if startswith_sep b then b
  else if (String.eqb a EmptyString || endswith_sep a)%bool then a +:+ b
  else a +:+ "/" +:+ b.

(** [template.format] with positional and keyword arguments, for templates whose replacement
    fields are [{}] (the next positional argument) or [{name}] (a keyword
    argument), with [{{] and [}}] for literal braces.  [None] stands for
    the [ValueError], [IndexError] or [KeyError] Python raises on a
    malformed template or a missing argument. *)
Inductive fmt_mode :=
| Text                      (* copying literal text *)
| Opened                    (* just read a left brace *)
| Field (name : string)     (* inside a replacement field *)
| Closed.                   (* just read a right brace outside a field *)

Fixpoint kw_lookup (name : string) (kwargs : list (string * string)) : option string :=
  match kwargs with
  | [] => None
  | (k, v) :: rest => if String.eqb k name then Some v else kw_lookup name rest
  end.

Definition field_value (name : string) (args : list string)
    (kwargs : list (string * string)) : option (string * list string) :=
  match name with
  | EmptyString =>
      match args with
      | [] => None
      | a :: args' => Some (a, args')
      end
  | _ => v ← kw_lookup name kwargs; Some (v, args)
  end.

Fixpoint format_from (mode : fmt_mode) (template : string) (args : list string)
    (kwargs : list (string * string)) : option string :=
  match template with
  | EmptyString => match mode with Text => Some EmptyString | _ => None end
  | String c rest =>
      match mode with
      | Text =>
          if Ascii.eqb c "{" then format_from Opened rest args kwargs
          else if Ascii.eqb c "}" then format_from Closed rest args kwargs
          else String c <$> format_from Text rest args kwargs
      | Opened =>
          if Ascii.eqb c "{" then String c <$> format_from Text rest args kwargs
          else if Ascii.eqb c "}" then
            '(v, args') ← field_value EmptyString args kwargs;
            String.append v <$> format_from Text rest args' kwargs
          else format_from (Field (String c EmptyString)) rest args kwargs
      | Field name =>
          if Ascii.eqb c "}" then
            '(v, args') ← field_value name args kwargs;
            String.append v <$> format_from Text rest args' kwargs
          else format_from (Field (name +:+ String c EmptyString)) rest args kwargs
      | Closed =>
          if Ascii.eqb c "}" then String c <$> format_from Text rest args kwargs
          else None
      end
  end.

Definition format (template : string) (args : list string)
    (kwargs : list (string * string)) : option string :=
  format_from Text template args kwargs.

(** What reading a file opened in text mode with the default [newline]
    does to the decoded text: a carriage return followed by a line feed,
    and a carriage return alone, are read as one line feed. *)
Fixpoint universal_newlines (text : string) : string :=
  match text with
  | EmptyString => EmptyString
  | String c rest =>
      if Ascii.eqb c CR
      then String LF
             match rest with
             | String c' rest' =>
                 if Ascii.eqb c' LF then universal_newlines rest'
                 else universal_newlines rest
             | EmptyString => EmptyString
             end
      else String c (universal_newlines rest)
  end.

End Py.



(** ** Exceptions *)

(** The classes of exception the kernel tells apart.  A
    [CalledProcessError] carries the exit status of the process and, as
    [stdout], the output captured from it. *)
Inductive exn_class :=
| AssertionError
| CalledProcessError (returncode : Z) (stdout : string)
| PermissionError
| FileNotFoundError
| OSError
| OtherException
| KeyboardInterrupt
| SystemExit.

(** An exception object: its class and the texts that [str()] and
    [repr()] give for it. *)
Record exn := Exn {
  exn_class_of : exn_class;
  exn_str : string;
  exn_repr : string
}.

(** [isinstance(e, Exception)]: every class but [KeyboardInterrupt] and
    [SystemExit], which derive from [BaseException] alone. *)
Definition is_Exception (e : exn) : bool :=
  match exn_class_of e with
  | KeyboardInterrupt | SystemExit => false
  | _ => true
  end.

(** [isinstance(e, OSError)] *)
Definition is_OSError (e : exn) : bool :=
  match exn_class_of e with
  | PermissionError | FileNotFoundError | OSError => true
  | _ => false
  end.

(** [isinstance(e, PermissionError)] *)
Definition is_PermissionError (e : exn) : bool :=
  match exn_class_of e with PermissionError => true | _ => false end.

(** [isinstance(e, subprocess.CalledProcessError)], with the captured output. *)
Definition CalledProcessError_stdout (e : exn) : option string :=
  match exn_class_of e with CalledProcessError _ out => Some out | _ => None end.

(** What a failing [str.format] raises. *)
Definition format_error : exn :=
  Exn OtherException "invalid format string" "ValueError('invalid format string')".

(** ** The kernel and its world *)

(** A message published on the output channel:
    [send_response(self.iopub_socket, msg_type, {'metadata': .., 'data': ..})]. *)
Record message := Message {
  msg_type : string;
  metadata : gmap string string;
  data : gmap string string
}.

(** One start of an external process, with what it was given.  The last
    two fields are a snapshot taken at the moment of the call: the files
    the process finds, and the kernel's pending buffer. *)
Record spawn := Spawn {
  argv : list string;
  cwd : string;
  files_seen : gmap string string;
  pending_seen : list string
}.

Record ElmKernel := Kernel {
  _code : list string;             (* self._code, the pending buffer *)
  _tempdir : string;               (* self._tempdir.name *)
  execution_count : Z;             (* self.execution_count, kept by the base class *)
  files : gmap string string;      (* the regular files on disk, by path *)
  iopub : list message;            (* what was sent on self.iopub_socket *)
  spawned : list spawn             (* the processes started *)
}.

Definition set_code (c : list string) (k : ElmKernel) : ElmKernel :=
  Kernel c (_tempdir k) (execution_count k) (files k) (iopub k) (spawned k).

Definition set_files (f : gmap string string) (k : ElmKernel) : ElmKernel :=
  Kernel (_code k) (_tempdir k) (execution_count k) f (iopub k) (spawned k).

Definition push_message (m : message) (k : ElmKernel) : ElmKernel :=
  Kernel (_code k) (_tempdir k) (execution_count k) (files k) (iopub k ++ [m]) (spawned k).

Definition push_spawn (s : spawn) (k : ElmKernel) : ElmKernel :=
  Kernel (_code k) (_tempdir k) (execution_count k) (files k) (iopub k) (spawned k ++ [s]).

Definition set_count (n : Z) (k : ElmKernel) : ElmKernel :=
  Kernel (_code k) (_tempdir k) n (files k) (iopub k) (spawned k).

(** A kernel just built by [__init__], in a fresh scratch directory. *)
Definition init (tempdir : string) (count : Z) (disk : gmap string string) : ElmKernel :=
  Kernel [] tempdir count disk [] [].

(** ** Computations: state and exceptions *)

Inductive outcome (A : Type) :=
| Return (a : A)
| Raise (e : exn).
Arguments Return {A} a.
Arguments Raise {A} e.

Definition M (A : Type) : Type := ElmKernel → outcome A * ElmKernel.

Definition ret {A} (a : A) : M A := λ k, (Return a, k).

Definition bind {A B} (m : M A) (f : A → M B) : M B :=
  λ k, match m k with
       | (Return a, k') => f a k'
       | (Raise e, k') => (Raise e, k')
       end.

Definition raise {A} (e : exn) : M A := λ k, (Raise e, k).

Definition gets {A} (f : ElmKernel → A) : M A := λ k, (Return (f k), k).

Definition modify (f : ElmKernel → ElmKernel) : M unit := λ k, (Return tt, f k).

(** [try: body except Exception as e: handler(e)]: what is not an
    [Exception] is not caught and goes on to the caller.  The narrower
    clauses of the kernel ([except PermissionError], [suppress(OSError)])
    are handlers that raise again what they do not take. *)
Definition try_except {A} (body : M A) (handler : exn → M A) : M A :=
  λ k, match body k with
       | (Return a, k') => (Return a, k')
       | (Raise e, k') => if is_Exception e then handler e k' else (Raise e, k')
       end.

(** [try: body finally: cleanup]: the cleanup runs on every exit; an
    exception of the cleanup replaces the outcome of the body. *)
Definition try_finally {A} (body : M A) (cleanup : M unit) : M A :=
  λ k, match body k with
       | (r, k') =>
           match cleanup k' with
           | (Return _, k'') => (r, k'')
           | (Raise e, k'') => (Raise e, k'')
           end
       end.

Declare Scope kernel_scope.
Delimit Scope kernel_scope with M.
Bind Scope kernel_scope with M.
Notation "x <- m ;; f" := (bind m (λ x, f))
  (at level 20, m at level 99, f at level 200, only parsing) : kernel_scope.
Notation "m ;; f" := (bind m (λ _, f))
  (at level 100, f at level 200, only parsing, right associativity) : kernel_scope.
Local Open Scope kernel_scope.

(** ** The collaborators *)

(** [shutil.copy] either copies the file, or raises; when it raises it
    may already have created the destination, with some text [partial]. *)
Inductive copy_result :=
| Copied
| CopyRaised (e : exn) (partial : option string).

(** Writing the input file either succeeds, or raises and leaves the file
    absent or with some partial text. *)
Inductive write_result :=
| Written
| WriteRaised (e : exn) (partial : option string).

(** [subprocess.run(.., check=True)] returns when the process exits with
    status zero, and raises otherwise: a [CalledProcessError] when the
    process exited with another status, something else when it could not
    be started. *)
Inductive run_result :=
| Completed (output : string)
| RunRaised (e : exn).

(** Reading a file in text mode decodes what it holds, or raises (a
    [UnicodeDecodeError]). *)
Inductive decode_result :=
| Decoded (text : string)
| DecodeRaised (e : exn).

Record Env := {
  (* the text of elm-package.json in the working directory, when
     os.path.isfile finds it *)
  manifest : option string;
  (* what shutil.copy does with it *)
  shutil_copy : copy_result;
  (* what opening and writing a file does *)
  write_text : string → string → write_result;
  (* the external command: from its arguments, its working directory and
     the files on disk to the files it leaves and its result *)
  run_command : list string → string → gmap string string →
                gmap string string * run_result;
  (* what decoding the content of a file read in text mode gives *)
  decode : string → decode_result;
  (* the str() and repr() of the OSError that os.remove raises on an
     existing path, when it cannot remove it *)
  remove_error : string → option (string * string);
  (* the str() and repr() of the FileNotFoundError raised for a path that
     does not exist *)
  missing_text : string → string * string;
  (* how the host advances the execution counter before it hands a cell
     over *)
  host_count : Z → Z
}.

(** What [open] and [os.remove] raise for a path that does not exist. *)
Definition no_such_file (env : Env) (path : string) : exn :=
  Exn FileNotFoundError (fst (missing_text env path)) (snd (missing_text env path)).

(** ** The methods of [ElmKernel] *)

Definition send_response (type : string) (meta content : gmap string string) : M unit :=
  modify (push_message (Message type meta content)).

Definition fmt (template : string) (args : list string)
    (kwargs : list (string * string)) : M string :=
  match Py.format template args kwargs with
  | Some s => ret s
  | None => raise format_error
  end.

Definition _send_error_result (msg : string) : M unit :=
  html <- fmt "<pre>{}</pre>" [msg] [] ;;
  send_response "display_data" ∅ {[ "text/html" := html ]}.

Definition template : string := "
            var defineElm = function(cb) {{
                if (this.Elm) {{
                    this.oldElm = this.Elm;
                }}
                var define = null;

                {js}

                cb();
            }}
            ;

            var obj = new Object();
            defineElm.bind(obj)(function(){{
                var mountNode = document.getElementById('{div_id}');
                obj.Elm. {module_name}.embed(mountNode);
            }});
        ".

Definition _send_success_result (javascript : string) : M unit :=
  let module_name := "Main" in
  count <- gets execution_count ;;
  let div_id := "elm-div-" +:+ Py.str_int count in
  javascript <- fmt template []
    [("js", javascript); ("module_name", module_name); ("div_id", div_id)] ;;
  send_response "display_data" ∅
    {[ "text/html" := "<div id=" +:+ Py.dquote +:+ div_id +:+ Py.dquote +:+ "></div>" ]} ;;
  send_response "display_data" ∅ {[ "application/javascript" := javascript ]}.

(** [shutil.copy('elm-package.json', dir)] *)
Definition copy_manifest (env : Env) (content : string) : M unit :=
  match shutil_copy env with
  | Copied =>
      dir <- gets _tempdir ;;
      modify (λ k, set_files (<[Py.os_path_join dir "elm-package.json" := content]> (files k)) k)
  | CopyRaised e partial =>
      dir <- gets _tempdir ;;
      modify (λ k, set_files (match partial with
                              | Some part =>
                                  <[Py.os_path_join dir "elm-package.json" := part]>
                                    (files k)
                              | None => files k
                              end) k) ;;
      raise e
  end.

Definition _copy_elm_package_file_to_tempdir (env : Env) : M unit :=
  match manifest env with
  | None => ret tt
  | Some content =>
      try_except (copy_manifest env content)
        (λ e, if is_PermissionError e
              then dir <- gets _tempdir ;;
                   msg <- fmt "Permission error: could not copy elm-package.json to {dir}"
                              [] [("dir", dir)] ;;
                   _send_error_result msg
              else raise e)
  end.

(** [os.remove(path)]: raises when the path does not exist, and when it
    exists and cannot be removed; the file is removed otherwise. *)
Definition os_remove (env : Env) (path : string) : M unit :=
  disk <- gets files ;;
  match disk !! path with
  | Some _ =>
      match remove_error env path with
      | None => modify (set_files (delete path disk))
      | Some (str, repr) => raise (Exn OSError str repr)
      end
  | None => raise (no_such_file env path)
  end.

(** [with contextlib.suppress(OSError): body] *)
Definition suppress_OSError (body : M unit) : M unit :=
  try_except body (λ e, if is_OSError e then ret tt else raise e).

(** The context manager [_tempfile]: the path of [filename] in the scratch
    directory, and on exit the file is deleted if it exists. *)
Definition _tempfile {A} (env : Env) (filename : string) (body : string → M A) : M A :=
  dir <- gets _tempdir ;;
  let path := Py.os_path_join dir filename in
  try_finally (body path) (suppress_OSError (os_remove env path)).

(** [with open(path, mode='wt') as f: f.write(text)] *)
Definition write_file (env : Env) (path text : string) : M unit :=
  match write_text env path text with
  | Written => modify (λ k, set_files (<[path := text]> (files k)) k)
  | WriteRaised e partial =>
      modify (λ k, set_files (match partial with
                              | Some part => <[path := part]> (files k)
                              | None => files k
                              end) k) ;;
      raise e
  end.

(** [with open(path, mode='rt') as f: f.read()]: the content decoded,
    its line ends read as line feeds. *)
Definition read_file (env : Env) (path : string) : M string :=
  disk <- gets files ;;
  match disk !! path with
  | Some content =>
      match decode env content with
      | Decoded text => ret (Py.universal_newlines text)
      | DecodeRaised e => raise e
      end
  | None => raise (no_such_file env path)
  end.

(** [subprocess.run(args, cwd=dir, check=True, stdout=PIPE, stderr=STDOUT, ..)] *)
Definition subprocess_run (env : Env) (args : list string) (dir : string) : M string :=
  disk <- gets files ;;
  pending <- gets _code ;;
  modify (push_spawn (Spawn args dir disk pending)) ;;
  match run_command env args dir disk with
  | (disk', Completed out) => modify (set_files disk') ;; ret out
  | (disk', RunRaised e) => modify (set_files disk') ;; raise e
  end.

Definition _compile (env : Env) (code : string) : M unit :=
  _copy_elm_package_file_to_tempdir env ;;
  _tempfile env "input.elm" (λ infile,
  _tempfile env "index.js" (λ outfile,
    write_file env infile code ;;
    try_except
      (dir <- gets _tempdir ;;
       output <- fmt "--output={}" [outfile] [] ;;
       subprocess_run env ["elm-make"; infile; "--yes"; output] dir ;;
       javascript <- read_file env outfile ;;
       _send_success_result javascript)
      (λ err,
         match CalledProcessError_stdout err with
         | Some out => _send_error_result out
         | None => _send_error_result (exn_repr err) ;; raise err
         end))).

Definition marker : string := "-- compile-code".

(** What [assert self._code, ".."] raises. *)
Definition assertion_error : exn :=
  Exn AssertionError
      "Should not be querying for compilation with no code!"
      "AssertionError('Should not be querying for compilation with no code!')".

(** What [self._code[-1]] raises on an empty list. *)
Definition index_error : exn :=
  Exn OtherException "list index out of range" "IndexError('list index out of range')".

(** The test made on one cell: the deque of length one keeps the last
    of its lines. *)
Definition cell_triggers (cell : string) : bool :=
  match Py.deque1 (Py.StringIO_lines cell) with
  | line :: _ => String.eqb line marker
  | [] => false
  end.

(** The property [_should_compile]. *)
Definition _should_compile : M bool :=
  code <- gets _code ;;
  match code with
  | [] => raise assertion_error
  | _ =>
      match last code with
      | Some cell => ret (cell_triggers cell)
      | None => raise index_error
      end
  end.

(** The reply of [do_execute]: a dictionary, whose keys [payload] and
    [user_expressions] are set on the normal path only. *)
Record reply := Reply {
  status : string;
  reply_execution_count : Z;
  payload : option (list string);
  user_expressions : option (gmap string string)
}.

Definition do_execute (env : Env) (code : string) : M reply :=
  modify (λ k, set_code (_code k ++ [code]) k) ;;
  fire <- _should_compile ;;
  early <- (if fire : bool
            then try_except
                   (cells <- gets _code ;;
                    let code := Py.join Py.nl cells in
                    modify (set_code []) ;;
                    _compile env code ;;
                    ret None)
                   (λ exc,
                      _send_error_result (exn_str exc) ;;
                      count <- gets execution_count ;;
                      ret (Some (Reply "error" count None None)))
            else ret None) ;;
  match early with
  | Some r => ret r
  | None =>
      count <- gets execution_count ;;
      ret (Reply "ok" count (Some []) (Some ∅))
  end.

(** A session: the host hands the cells over one at a time, each in its
    own environment, advancing the execution counter before each, and goes
    on whatever the outcome. *)
Fixpoint session (steps : list (Env * string)) (k : ElmKernel) : ElmKernel :=
  match steps with
  | [] => k
  | (env, cell) :: rest =>
      session rest
        (snd (do_execute env cell (set_count (host_count env (execution_count k)) k)))
  end.

(** ** Lines of a cell *)

(** The first line of a cell in the words of the specification: the text
    up to the first line break, or the whole cell when it has none.  The
    kernel does not compute it: the trigger is stated against it. *)
Fixpoint first_line (cell : string) : string :=
  match cell with
  | EmptyString => EmptyString
  | String c rest =>
      if Ascii.eqb c Py.LF then EmptyString else String c (first_line rest)
  end.

(** Whether a text has a line break. *)
Fixpoint has_LF (text : string) : bool :=
  match text with
  | EmptyString => false
  | String c rest => Ascii.eqb c Py.LF || has_LF rest
  end.

(** The test of the trigger on the lines of a cell. *)
Definition lines_trigger (lines : list string) : bool :=
  match Py.deque1 lines with
  | line :: _ => String.eqb line marker
  | [] => false
  end.

(** ** Closed forms *)

(** The error panel: what [_send_error_result] publishes. *)
Definition error_panel (msg : string) : message :=
  Message "display_data" ∅ {[ "text/html" := "<pre>" +:+ msg +:+ "</pre>" ]}.

(** The identifier of the container element of an execution. *)
Definition div_id_of (count : Z) : string := "elm-div-" +:+ Py.str_int count.

(** The container element of a successful compilation. *)
Definition container (div_id : string) : message :=
  Message "display_data" ∅
    {[ "text/html" := "<div id=" +:+ Py.dquote +:+ div_id +:+ Py.dquote +:+ "></div>" ]}.

(** The pieces of [template] between its replacement fields, its doubled
    braces read as single ones. *)
Definition script_head : string := "
            var defineElm = function(cb) {
                if (this.Elm) {
                    this.oldElm = this.Elm;
                }
                var define = null;

                ".
Definition script_lookup : string := "

                cb();
            }
            ;

            var obj = new Object();
            defineElm.bind(obj)(function(){
                var mountNode = ".
Definition script_mount : string := ";
                ".
Definition script_tail : string := "
            });
        ".

(** The call that finds the container element, and the call that embeds
    module Main in it. *)
Definition lookup_call (div_id : string) : string :=
  "document.getElementById('" +:+ div_id +:+ "')".
Definition mount_call : string := "obj.Elm. Main.embed(mountNode);".

(** The script of a successful compilation: the template with its fields
    filled in. *)
Definition mount_script (javascript div_id : string) : string :=
  script_head +:+ javascript +:+ script_lookup +:+ lookup_call div_id
  +:+ script_mount +:+ mount_call +:+ script_tail.

Definition script_message (script : string) : message :=
  Message "display_data" ∅ {[ "application/javascript" := script ]}.

(** The two scratch files and the command line of the compiler. *)
Definition infile (k : ElmKernel) : string := Py.os_path_join (_tempdir k) "input.elm".
Definition outfile (k : ElmKernel) : string := Py.os_path_join (_tempdir k) "index.js".
Definition manifest_copy (k : ElmKernel) : string :=
  Py.os_path_join (_tempdir k) "elm-package.json".
Definition elm_make_args (k : ElmKernel) : list string :=
  ["elm-make"; infile k; "--yes"; "--output=" +:+ outfile k].

(** Whether the copy of the manifest lets the compilation go on: it does
    unless [shutil.copy] raises something else than a [PermissionError]. *)
Definition copy_passes (env : Env) : bool :=
  match manifest env, shutil_copy env with
  | Some _, CopyRaised e _ => is_PermissionError e
  | _, _ => true
  end.

(** What the copy of the manifest publishes: one panel when it fails for
    lack of permission, nothing otherwise. *)
Definition manifest_notice (env : Env) (k : ElmKernel) : list message :=
  match manifest env, shutil_copy env with
  | Some _, CopyRaised e _ =>
      if is_PermissionError e
      then [error_panel ("Permission error: could not copy elm-package.json to "
                         +:+ _tempdir k)]
      else []
  | _, _ => []
  end.

(** The files on disk after the copy step, whether it copied the
    manifest, left a part of it behind, or did nothing. *)
Definition files_after_copy (env : Env) (k : ElmKernel) : gmap string string :=
  match manifest env, shutil_copy env with
  | Some content, Copied => <[manifest_copy k := content]> (files k)
  | Some _, CopyRaised _ (Some part) => <[manifest_copy k := part]> (files k)
  | _, _ => files k
  end.

(** The files on disk after an attempt to remove [path] whose failure is
    ignored: the file is gone unless it was there and could not be
    removed. *)
Definition swept (env : Env) (path : string) (disk : gmap string string)
    : gmap string string :=
  match disk !! path, remove_error env path with
  | Some _, None => delete path disk
  | _, _ => disk
  end.

(** The files the compiler finds: the manifest copied, the compilation
    unit written to the input file. *)
Definition staged (env : Env) (code : string) (k : ElmKernel) : gmap string string :=
  <[infile k := code]> (files_after_copy env k).

(** The start of the compiler, as [_compile] records it. *)
Definition elm_make_spawn (env : Env) (code : string) (k : ElmKernel) : spawn :=
  Spawn (elm_make_args k) (_tempdir k) (staged env code k) (_code k).

(** What the compiler does when [_compile] starts it. *)
Definition elm_make (env : Env) (code : string) (k : ElmKernel)
    : gmap string string * run_result :=
  run_command env (elm_make_args k) (_tempdir k) (staged env code k).

(** The kernel when [_compile] is over: the removal of the scratch files
    attempted on [disk], the messages [msgs] published, the processes
    [procs] started. *)
Definition settled (env : Env) (k : ElmKernel) (disk : gmap string string)
    (msgs : list message) (procs : list spawn) : ElmKernel :=
  Kernel (_code k) (_tempdir k) (execution_count k)
         (swept env (infile k) (swept env (outfile k) disk))
         (iopub k ++ manifest_notice env k ++ msgs)
         (spawned k ++ procs).

(** The unit that [do_execute] compiles when [cell] fires the trigger. *)
Definition compilation_unit (k : ElmKernel) (cell : string) : string :=
  Py.join Py.nl (_code k ++ [cell]).

(** Neither scratch file is on disk. *)
Definition scratch_clean (k : ElmKernel) : Prop :=
  files k !! infile k = None ∧ files k !! outfile k = None.

Definition ok_reply (count : Z) : reply := Reply "ok" count (Some []) (Some ∅).
Definition error_reply (count : Z) : reply := Reply "error" count None None.

(** What the handlers of [_compile] make of an exception raised while the
    compiler runs or its output is read: the outcome, and the messages
    published.  A [CalledProcessError] is reported and swallowed; another
    [Exception] is reported and raised again; anything else is not caught. *)
Definition caught (e : exn) : outcome unit * list message :=
  match CalledProcessError_stdout e with
  | Some out => (Return tt, [error_panel out])
  | None =>
      if is_Exception e then (Raise e, [error_panel (exn_repr e)])
      else (Raise e, [])
  end.

(** What the [try] block of [_compile] comes to, once the input file is
    written: the files the compiler leaves, the outcome, and the messages
    published. *)
Definition attempt (env : Env) (code : string) (k : ElmKernel)
    : gmap string string * (outcome unit * list message) :=
  match elm_make env code k with
  | (disk', RunRaised e) => (disk', caught e)
  | (disk', Completed _) =>
      match disk' !! outfile k with
      | None => (disk', caught (no_such_file env (outfile k)))
      | Some content =>
          match decode env content with
          | Decoded text =>
              (disk',
               (Return tt,
                [container (div_id_of (execution_count k));
                 script_message (mount_script (Py.universal_newlines text)
                                   (div_id_of (execution_count k)))]))
          | DecodeRaised e => (disk', caught e)
          end
      end
  end.

(** The cells submitted since the last one that fired the trigger, or
    since the kernel started when none did. *)
Fixpoint since_last_firing (cells : list string) : list string :=
  match cells with
  | [] => []
  | c :: rest =>
      if existsb cell_triggers (c :: rest) then since_last_firing rest
      else c :: rest
  end.

(** The panel published when the manifest cannot be copied. *)
Definition permission_panel (k : ElmKernel) : message :=
  error_panel ("Permission error: could not copy elm-package.json to " +:+ _tempdir k).


(** ** Sample collaborators *)

Module Sample.

(** The texts of Python for a missing file whose path needs no escape. *)
Definition missing (path : string) : string * string :=
  ("[Errno 2] No such file or directory: '" +:+ path +:+ "'",
   "FileNotFoundError(2, 'No such file or directory')").

(** A compiler that exits with status zero and leaves [js] in the output
    file. *)
Definition compiles (js : string) : Env :=
  {| manifest := None;
     shutil_copy := Copied;
     write_text := λ _ _, Written;
     run_command := λ args dir disk,
       (<[Py.os_path_join dir "index.js" := js]> disk, Completed "Success!");
     decode := Decoded;
     remove_error := λ _, None;
     missing_text := missing;
     host_count := Z.succ |}.

(** A compiler that exits with status 1 after printing [out]. *)
Definition rejects (out : string) : Env :=
  {| manifest := None;
     shutil_copy := Copied;
     write_text := λ _ _, Written;
     run_command := λ args dir disk,
       (disk, RunRaised (Exn (CalledProcessError 1 out)
                             "Command 'elm-make' returned non-zero exit status 1."
                             "CalledProcessError(1, 'elm-make')"));
     decode := Decoded;
     remove_error := λ _, None;
     missing_text := missing;
     host_count := Z.succ |}.

(** No compiler on the path. *)
Definition elm_make_missing : exn :=
  Exn FileNotFoundError
      "[Errno 2] No such file or directory: 'elm-make'"
      "FileNotFoundError(2, 'No such file or directory')".

Definition no_compiler : Env :=
  {| manifest := None;
     shutil_copy := Copied;
     write_text := λ _ _, Written;
     run_command := λ args dir disk, (disk, RunRaised elm_make_missing);
     decode := Decoded;
     remove_error := λ _, None;
     missing_text := missing;
     host_count := Z.succ |}.

(** A manifest that may not be copied, in front of any of the above. *)
Definition denied : exn :=
  Exn PermissionError
      "[Errno 13] Permission denied: 'elm-package.json'"
      "PermissionError(13, 'Permission denied')".

Definition with_denied_manifest (env : Env) : Env :=
  {| manifest := Some "{}";
     shutil_copy := CopyRaised denied None;
     write_text := write_text env;
     run_command := run_command env;
     decode := decode env;
     remove_error := remove_error env;
     missing_text := missing_text env;
     host_count := host_count env |}.

(** A kernel at its seventh execution, one cell pending. *)
Definition fresh : ElmKernel := init "/tmp/elm" 7 ∅.
Definition pending : ElmKernel := set_code ["module Main exposing (..)"] fresh.

End Sample.

(** ** Notions for the further properties *)

(** The lines of a text put back together. *)
Definition concat_lines (lines : list string) : string :=
  fold_right String.append EmptyString lines.

(** A message as the kernel publishes them: a [display_data] message with
    no metadata and one entry, an HTML text or a script. *)
Definition display_shape (m : message) : Prop :=
  msg_type m = "display_data" ∧ metadata m = ∅
  ∧ ∃ text, data m = {[ "text/html" := text ]}
            ∨ data m = {[ "application/javascript" := text ]}.

(** The number of cells that fire the trigger. *)
Fixpoint firing_count (cells : list string) : nat :=
  match cells with
  | [] => 0
  | c :: rest => (if cell_triggers c then 1 else 0) + firing_count rest
  end.





Module Stub.

(** A manifest that is copied, in front of another environment. *)
Definition with_manifest (content : string) (env : Env) : Env :=
  {| manifest := Some content;
     shutil_copy := Copied;
     write_text := write_text env;
     run_command := run_command env;
     decode := decode env;
     remove_error := remove_error env;
     missing_text := missing_text env;
     host_count := host_count env |}.

(** A scratch directory with no room left: the copy of the manifest stops
    after it has created an empty destination. *)
Definition no_space : exn :=
  Exn OSError
      "[Errno 28] No space left on device"
      "OSError(28, 'No space left on device')".

Definition full_disk (env : Env) : Env :=
  {| manifest := Some "{}";
     shutil_copy := CopyRaised no_space (Some "");
     write_text := write_text env;
     run_command := run_command env;
     decode := decode env;
     remove_error := remove_error env;
     missing_text := missing_text env;
     host_count := host_count env |}.

(** The input file is created, and nothing can be written to it. *)
Definition unwritable (env : Env) : Env :=
  {| manifest := manifest env;
     shutil_copy := shutil_copy env;
     write_text := λ _ _, WriteRaised no_space (Some "");
     run_command := run_command env;
     decode := decode env;
     remove_error := remove_error env;
     missing_text := missing_text env;
     host_count := host_count env |}.


(** Files that cannot be removed from the scratch directory. *)
Definition undeletable (env : Env) : Env :=
  {| manifest := manifest env;
     shutil_copy := shutil_copy env;
     write_text := write_text env;
     run_command := run_command env;
     decode := decode env;
     remove_error := λ _, Some ("[Errno 13] Permission denied",
                                "PermissionError(13, 'Permission denied')");
     missing_text := missing_text env;
     host_count := host_count env |}.

(** The user interrupts the kernel while the compiler runs. *)
Definition interrupt : exn := Exn KeyboardInterrupt "" "KeyboardInterrupt()".

Definition interrupted : Env :=
  {| manifest := None;
     shutil_copy := Copied;
     write_text := λ _ _, Written;
     run_command := λ args dir disk, (disk, RunRaised interrupt);
     decode := Decoded;
     remove_error := λ _, None;
     missing_text := Sample.missing;
     host_count := Z.succ |}.


End Stub.
(** * Properties *)

(** ** The primitives *)

Section Primitives.

Lemma deque_fold_last {A} (l : list A) (d : list A) :
  fold_left Py.deque_append1 l d = match last l with Some x => [x] | None => d end.
Proof.
  revert d. induction l as [|y l IH]; intros d; [reflexivity|].
  simpl. rewrite IH. destruct l as [|a l]; [reflexivity|].
  change (last (y :: a :: l)) with (last (a :: l)).
  destruct (last (a :: l)) eqn:E; [reflexivity|].
  apply last_None in E. discriminate.
Qed.

Lemma deque1_last {A} (l : list A) :
  Py.deque1 l = match last l with Some x => [x] | None => [] end.
Proof. apply deque_fold_last. Qed.

Lemma join_singleton sep p : Py.join sep [p] = p.
Proof. reflexivity. Qed.

Lemma format_pre msg :
  Py.format "<pre>{}</pre>" [msg] [] = Some ("<pre>" +:+ msg +:+ "</pre>").
Proof. reflexivity. Qed.

Lemma append_empty_r (s : string) : s +:+ "" = s.
Proof.
  induction s as [|c s IH]; [reflexivity|].
  change (String c (s +:+ "") = String c s). by rewrite IH.
Qed.

Lemma format_output path :
  Py.format "--output={}" [path] [] = Some ("--output=" +:+ path).
Proof.
  transitivity (Some ("--output=" +:+ (path +:+ ""))); [reflexivity|].
  by rewrite append_empty_r.
Qed.

Lemma format_permission dir :
  Py.format "Permission error: could not copy elm-package.json to {dir}" []
            [("dir", dir)]
  = Some ("Permission error: could not copy elm-package.json to " +:+ dir).
Proof.
  transitivity
    (Some ("Permission error: could not copy elm-package.json to " +:+ (dir +:+ "")));
    [reflexivity|].
  by rewrite append_empty_r.
Qed.

End Primitives.

(** ** The trigger *)

Section Trigger.

Lemma append_assoc (a b c : string) : (a +:+ b) +:+ c = a +:+ (b +:+ c).
Proof.
  induction a as [|x a IH]; [reflexivity|].
  change (String x ((a +:+ b) +:+ c) = String x (a +:+ (b +:+ c))).
  by rewrite IH.
Qed.

Lemma append_cons (a : string) (x : ascii) (b : string) :
  (a +:+ String x "") +:+ b = a +:+ String x b.
Proof. by rewrite append_assoc. Qed.

Lemma has_LF_append a b : has_LF (a +:+ b) = has_LF a || has_LF b.
Proof.
  induction a as [|x a IH]; [reflexivity|].
  change (Ascii.eqb x Py.LF || has_LF (a +:+ b)
          = Ascii.eqb x Py.LF || has_LF a || has_LF b).
  rewrite IH. by rewrite orb_assoc.
Qed.

Lemma has_LF_break a b : has_LF (a +:+ String Py.LF b) = true.
Proof. rewrite has_LF_append. simpl. by rewrite orb_true_r. Qed.

(** No line that keeps its terminator is the marker. *)
Lemma terminated_line_not_marker line : String.eqb (line +:+ Py.nl) marker = false.
Proof.
  apply String.eqb_neq. intros E.
  assert (H : has_LF (line +:+ Py.nl) = true) by apply has_LF_break.
  rewrite E in H. discriminate.
Qed.

Lemma lines_trigger_cons x l :
  lines_trigger (x :: l)
  = match l with [] => String.eqb x marker | _ => lines_trigger l end.
Proof.
  unfold lines_trigger. rewrite !deque1_last.
  destruct l as [|y l]; [reflexivity|].
  change (last (x :: y :: l)) with (last (y :: l)). reflexivity.
Qed.

Lemma cell_triggers_lines cell :
  cell_triggers cell = lines_trigger (Py.StringIO_lines cell).
Proof. reflexivity. Qed.

(** Two texts that agree up to a line break, the first without a break
    before it. *)
Lemma first_break cur rest pre tail :
  has_LF cur = false →
  cur +:+ String Py.LF rest = pre +:+ String Py.LF tail →
  (pre = cur ∧ rest = tail)
  ∨ ∃ pre', pre = cur +:+ String Py.LF pre' ∧ rest = pre' +:+ String Py.LF tail.
Proof.
  revert pre. induction cur as [|x cur IH]; intros pre Hcur E.
  - destruct pre as [|y pre].
    + left. injection E as ->. done.
    + right. injection E as <- ->. by exists pre.
  - simpl in Hcur. apply orb_false_iff in Hcur as [Hx Hcur].
    destruct pre as [|y pre].
    + injection E as -> _. by rewrite Ascii.eqb_refl in Hx.
    + injection E as <- E. destruct (IH pre Hcur E) as [[-> ->]|[pre' [-> ->]]].
      * by left.
      * right. by exists pre'.
Qed.

Lemma readlines_marker_suffix_l cur text :
  lines_trigger (Py.readlines_from cur text) = true →
  cur +:+ text = marker ∨ ∃ pre, cur +:+ text = pre +:+ Py.nl +:+ marker.
Proof.
  revert cur. induction text as [|c rest IH]; intros cur H.
  - left. rewrite append_empty_r. destruct cur; [discriminate|].
    simpl in H. by apply String.eqb_eq in H.
  - simpl in H. destruct (Ascii.eqb_spec c Py.LF) as [->|Hc].
    + rewrite lines_trigger_cons in H.
      destruct (Py.readlines_from "" rest) as [|l ls] eqn:E.
      { by rewrite terminated_line_not_marker in H. }
      rewrite <-E in H. right.
      destruct (IH _ H) as [E'|[pre E']];
        change (EmptyString +:+ rest) with rest in E'.
      * exists cur. by rewrite E'.
      * exists (cur +:+ Py.nl +:+ pre). rewrite E'.
        by rewrite !append_assoc.
    + destruct (IH _ H) as [E'|[pre E']]; rewrite append_cons in E'.
      * by left.
      * right. by exists pre.
Qed.

Lemma readlines_marker_whole cur text :
  cur +:+ text = marker → lines_trigger (Py.readlines_from cur text) = true.
Proof.
  revert cur. induction text as [|c rest IH]; intros cur E.
  - rewrite append_empty_r in E. by subst cur.
  - simpl. destruct (Ascii.eqb_spec c Py.LF) as [->|Hc].
    + pose proof (has_LF_break cur rest) as H. rewrite E in H. discriminate.
    + apply IH. by rewrite append_cons.
Qed.

Lemma readlines_marker_suffix_r cur text pre :
  has_LF cur = false →
  cur +:+ text = pre +:+ Py.nl +:+ marker →
  lines_trigger (Py.readlines_from cur text) = true.
Proof.
  revert cur pre. induction text as [|c rest IH]; intros cur pre Hcur E.
  - rewrite append_empty_r in E. subst cur.
    assert (has_LF (pre +:+ Py.nl +:+ marker) = true) as H
      by apply (has_LF_break pre marker).
    congruence.
  - simpl. destruct (Ascii.eqb_spec c Py.LF) as [->|Hc].
    + rewrite lines_trigger_cons.
      destruct (first_break cur rest pre marker Hcur E) as [[-> ->]|[pre' [-> ->]]].
      * reflexivity.
      * pose proof (IH "" pre' eq_refl eq_refl) as H.
        destruct (Py.readlines_from "" _); [discriminate|done].
    + apply (IH _ pre).
      * rewrite has_LF_append, Hcur. simpl.
        destruct (Ascii.eqb_spec c Py.LF); [done|]. reflexivity.
      * by rewrite append_cons.
Qed.

(** The trigger fires on a cell exactly when the text after its last line
    break, or the whole cell when it has none, is the marker. *)
Lemma cell_triggers_iff cell :
  cell_triggers cell = true ↔
  cell = marker ∨ ∃ pre, cell = pre +:+ Py.nl +:+ marker.
Proof.
  rewrite cell_triggers_lines. unfold Py.StringIO_lines. split.
  - intros H. by apply readlines_marker_suffix_l in H.
  - intros [E|[pre E]].
    + by apply readlines_marker_whole.
    + by apply (readlines_marker_suffix_r "" cell pre).
Qed.

(** A cell that ends with a line break never fires the trigger: its last
    line keeps the break. *)
Lemma readlines_terminated cur body :
  ∃ line, last (Py.readlines_from cur (body +:+ Py.nl)) = Some (line +:+ Py.nl).
Proof.
  revert cur. induction body as [|c rest IH]; intros cur.
  - exists cur. reflexivity.
  - change (String c rest +:+ Py.nl) with (String c (rest +:+ Py.nl)). simpl.
    destruct (Ascii.eqb c Py.LF).
    + destruct (IH "") as [line E]. exists line.
      destruct (Py.readlines_from "" (rest +:+ Py.nl)); [discriminate|exact E].
    + apply IH.
Qed.

Lemma cell_triggers_terminated body : cell_triggers (body +:+ Py.nl) = false.
Proof.
  unfold cell_triggers, Py.StringIO_lines. rewrite deque1_last.
  destruct (readlines_terminated "" body) as [line ->].
  apply terminated_line_not_marker.
Qed.

End Trigger.

(** ** The methods, step by step *)

Section Methods.

Lemma format_template js div_id :
  Py.format template [] [("js", js); ("module_name", "Main"); ("div_id", div_id)]
  = Some (mount_script js div_id).
Proof.
  transitivity
    (Some (script_head +:+ js +:+ script_lookup +:+ "document.getElementById('"
           +:+ div_id +:+ "')" +:+ script_mount +:+ mount_call +:+ script_tail));
    [reflexivity|].
  unfold mount_script, lookup_call. by rewrite !append_assoc.
Qed.

Lemma send_error_result_spec msg k :
  _send_error_result msg k = (Return tt, push_message (error_panel msg) k).
Proof. reflexivity. Qed.

Lemma send_success_result_spec js k :
  _send_success_result js k
  = (Return tt,
     push_message (script_message (mount_script js (div_id_of (execution_count k))))
       (push_message (container (div_id_of (execution_count k))) k)).
Proof.
  unfold _send_success_result, bind, gets, fmt.
  change ("elm-div-" +:+ Py.str_int (execution_count k))
    with (div_id_of (execution_count k)).
  rewrite format_template. reflexivity.
Qed.

End Methods.

Section Pipeline.

(** Unfolds the operations on computations and the accessors of the
    kernel, and nothing else. *)
Ltac run :=
  cbv beta iota zeta delta
    [bind ret raise gets modify try_except try_finally send_response
     set_code set_files push_message push_spawn];
  cbn [_code _tempdir execution_count files iopub spawned fst snd].

Lemma stdout_is_Exception e out :
  CalledProcessError_stdout e = Some out → is_Exception e = true.
Proof.
  unfold CalledProcessError_stdout, is_Exception. by destruct (exn_class_of e).
Qed.

Lemma PermissionError_is_Exception e :
  is_PermissionError e = true → is_Exception e = true.
Proof. unfold is_PermissionError, is_Exception. by destruct (exn_class_of e). Qed.

Lemma copy_step_passes env k :
  copy_passes env = true →
  _copy_elm_package_file_to_tempdir env k
  = (Return tt,
     Kernel (_code k) (_tempdir k) (execution_count k) (files_after_copy env k)
            (iopub k ++ manifest_notice env k) (spawned k)).
Proof.
  unfold copy_passes, _copy_elm_package_file_to_tempdir, manifest_notice,
    files_after_copy, copy_manifest, manifest_copy.
  destruct k as [c d n f io sp].
  destruct (manifest env) as [content|]; [|by rewrite app_nil_r].
  destruct (shutil_copy env) as [|e partial]; [by rewrite app_nil_r|].
  intros He. unfold fmt. run.
  rewrite (PermissionError_is_Exception _ He), He, format_permission.
  by destruct partial.
Qed.

Lemma copy_step_raises env k content e partial :
  manifest env = Some content → shutil_copy env = CopyRaised e partial →
  is_PermissionError e = false →
  _copy_elm_package_file_to_tempdir env k
  = (Raise e, set_files (files_after_copy env k) k).
Proof.
  intros Hm Hc He.
  unfold _copy_elm_package_file_to_tempdir, copy_manifest, files_after_copy,
    manifest_copy.
  rewrite Hm, Hc. run. rewrite He.
  by destruct (is_Exception e), partial.
Qed.

Lemma remove_if_exists env path k :
  suppress_OSError (os_remove env path) k
  = (Return tt, set_files (swept env path (files k)) k).
Proof.
  unfold suppress_OSError, os_remove, swept. run.
  destruct (files k !! path) eqn:E.
  - destruct (remove_error env path) as [[str repr]|]; [|reflexivity].
    run. by destruct k.
  - run. by destruct k.
Qed.

Lemma tempfile_spec {A} env filename (body : string → M A) k :
  _tempfile env filename body k
  = let r := body (Py.os_path_join (_tempdir k) filename) k in
    (fst r, set_files (swept env (Py.os_path_join (_tempdir k) filename)
                             (files (snd r))) (snd r)).
Proof.
  unfold _tempfile, bind, gets, try_finally.
  destruct (body _ k) as [r k']. by rewrite remove_if_exists.
Qed.

(** The steps every path of [_compile] shares once the manifest is copied:
    both scratch files are named, and their removal attempted at the end. *)
Ltac enter_compile k Hcopy :=
  destruct k as [c d n f io sp];
  unfold attempt, elm_make, elm_make_args, staged, infile, outfile in *;
  cbn [_tempdir execution_count] in *;
  unfold _compile; unfold bind at 1;
  rewrite (copy_step_passes _ _ Hcopy);
  cbv beta iota; rewrite tempfile_spec; cbv beta zeta;
  rewrite tempfile_spec; cbv beta zeta;
  unfold write_file, subprocess_run, read_file, fmt; run.

Ltac leave_compile :=
  unfold settled, elm_make_spawn, elm_make_args, staged, infile, outfile;
  cbn [_code _tempdir execution_count files iopub spawned];
  rewrite <- ?app_assoc, ?app_nil_r; reflexivity.

(** The copy of the manifest raises: nothing else happens. *)
Lemma compile_copy_raises env code k content e partial :
  manifest env = Some content → shutil_copy env = CopyRaised e partial →
  is_PermissionError e = false →
  _compile env code k = (Raise e, set_files (files_after_copy env k) k).
Proof.
  intros Hm Hc He. unfold _compile. unfold bind at 1.
  by rewrite (copy_step_raises _ _ _ _ _ Hm Hc He).
Qed.

(** The input file cannot be written: the compiler is not started. *)
Lemma compile_write_raises env code k e partial :
  copy_passes env = true →
  write_text env (infile k) code = WriteRaised e partial →
  _compile env code k
  = (Raise e,
     settled env k
       (match partial with
        | Some part => <[infile k := part]> (files_after_copy env k)
        | None => files_after_copy env k
        end) [] []).
Proof.
  intros Hcopy Hw. enter_compile k Hcopy.
  rewrite Hw. run. leave_compile.
Qed.

(** The handlers of the [try] block, for an exception [e] raised in it. *)
Ltac handle e :=
  let He := fresh "He" in
  unfold caught;
  destruct (CalledProcessError_stdout e) as [?out|] eqn:He;
  [ rewrite (stdout_is_Exception _ _ He), send_error_result_spec; run; leave_compile
  | destruct (is_Exception e);
    [ rewrite send_error_result_spec; run; leave_compile
    | run; leave_compile ] ].

(** The input file is written: the compiler is started, and the rest is
    what [attempt] says. *)
Lemma compile_staged env code k :
  copy_passes env = true →
  write_text env (infile k) code = Written →
  _compile env code k
  = (fst (snd (attempt env code k)),
     settled env k (fst (attempt env code k)) (snd (snd (attempt env code k)))
       [elm_make_spawn env code k]).
Proof.
  intros Hcopy Hw. enter_compile k Hcopy.
  rewrite Hw. run. rewrite format_output. run.
  destruct (run_command env _ _ _) as [disk' [out|e]]; run.
  - destruct (disk' !! Py.os_path_join d "index.js") as [content|] eqn:Hjs; run.
    + destruct (decode env content) as [text|e]; run.
      * rewrite send_success_result_spec. run. leave_compile.
      * handle e.
    + handle (no_such_file env (Py.os_path_join d "index.js")).
  - handle e.
Qed.

End Pipeline.

Section Execute.

(** The three ways [_compile] can go: the copy of the manifest raises, the
    input file cannot be written, or the compiler is started. *)
Lemma compile_cases env code k :
  (∃ content e partial,
     manifest env = Some content ∧ shutil_copy env = CopyRaised e partial
     ∧ is_PermissionError e = false ∧ copy_passes env = false
     ∧ _compile env code k = (Raise e, set_files (files_after_copy env k) k))
  ∨ (copy_passes env = true
     ∧ ∃ e partial,
         write_text env (infile k) code = WriteRaised e partial
         ∧ _compile env code k
           = (Raise e,
              settled env k
                (match partial with
                 | Some part => <[infile k := part]> (files_after_copy env k)
                 | None => files_after_copy env k
                 end) [] []))
  ∨ (copy_passes env = true
     ∧ write_text env (infile k) code = Written
     ∧ _compile env code k
       = (fst (snd (attempt env code k)),
          settled env k (fst (attempt env code k))
            (snd (snd (attempt env code k))) [elm_make_spawn env code k])).
Proof.
  destruct (copy_passes env) eqn:Hcopy.
  - right. destruct (write_text env (infile k) code) as [|e partial] eqn:Hw.
    + right. split; [done|]. split; [done|]. by apply compile_staged.
    + left. split; [done|]. exists e, partial. split; [done|].
      by apply compile_write_raises.
  - left. pose proof Hcopy as Hcopy'. unfold copy_passes in Hcopy.
    destruct (manifest env) as [content|] eqn:Hm; [|discriminate].
    destruct (shutil_copy env) as [|e partial] eqn:Hc; [discriminate|].
    exists content, e, partial. repeat split; try done.
    by eapply compile_copy_raises.
Qed.

(** What [_compile] leaves alone, and what it adds. *)
Lemma compile_frame env code k :
  let k' := snd (_compile env code k) in
  _code k' = _code k ∧ _tempdir k' = _tempdir k
  ∧ execution_count k' = execution_count k
  ∧ (∃ msgs, iopub k' = iopub k ++ msgs)
  ∧ (spawned k' = spawned k
     ∨ spawned k' = spawned k ++ [elm_make_spawn env code k]).
Proof.
  destruct (compile_cases env code k)
    as [(content & e & partial & _ & _ & _ & _ & ->)
       |[(_ & e & partial & _ & ->)|(_ & _ & ->)]];
    cbn [snd settled set_files _code _tempdir execution_count iopub spawned];
    repeat split; eauto; try (left; by rewrite app_nil_r).
  exists []. by rewrite app_nil_r.
Qed.

Lemma should_compile_spec k buf cell :
  _code k = buf ++ [cell] → _should_compile k = (Return (cell_triggers cell), k).
Proof.
  intros E. unfold _should_compile, bind, gets. rewrite E.
  rewrite last_snoc. by destruct buf.
Qed.

Lemma should_compile_empty k :
  _code k = [] → _should_compile k = (Raise assertion_error, k).
Proof. intros E. unfold _should_compile, bind, gets. by rewrite E. Qed.

(** A cell that does not fire the trigger is appended, and that is all. *)
Lemma do_execute_quiet env cell k :
  cell_triggers cell = false →
  do_execute env cell k
  = (Return (ok_reply (execution_count k)), set_code (_code k ++ [cell]) k).
Proof.
  intros H. unfold do_execute. unfold bind at 1, modify at 1. unfold bind at 1.
  rewrite (should_compile_spec _ (_code k) cell) by reflexivity.
  rewrite H. reflexivity.
Qed.

(** A cell that fires the trigger: the buffer is emptied, the unit
    compiled; an [Exception] of [_compile] is caught and reported, anything
    else it raises goes on to the host. *)
Lemma do_execute_fires env cell k :
  cell_triggers cell = true →
  do_execute env cell k
  = match _compile env (compilation_unit k cell) (set_code [] k) with
    | (Return _, k') => (Return (ok_reply (execution_count k)), k')
    | (Raise exc, k') =>
        if is_Exception exc
        then (Return (error_reply (execution_count k)),
              push_message (error_panel (exn_str exc)) k')
        else (Raise exc, k')
    end.
Proof.
  intros H. unfold do_execute. unfold bind at 1, modify at 1. unfold bind at 1.
  rewrite (should_compile_spec _ (_code k) cell) by reflexivity.
  rewrite H. unfold compilation_unit.
  pose proof (compile_frame env (Py.join Py.nl (_code k ++ [cell])) (set_code [] k))
    as (_ & _ & Hn & _).
  change (execution_count (set_code [] k)) with (execution_count k) in Hn.
  unfold bind, try_except, gets, modify, ret.
  change (_code (set_code (_code k ++ [cell]) k)) with (_code k ++ [cell]).
  change (set_code [] (set_code (_code k ++ [cell]) k)) with (set_code [] k).
  destruct (_compile env _ _) as [[[]|exc] k']; cbn [snd] in Hn.
  - by rewrite Hn.
  - destruct (is_Exception exc); [|done].
    rewrite send_error_result_spec.
    change (execution_count (push_message _ k')) with (execution_count k').
    by rewrite Hn.
Qed.

End Execute.

(** ** The pending buffer across a session *)

Section Buffer.

Lemma do_execute_code env cell k :
  _code (snd (do_execute env cell k))
  = if cell_triggers cell then [] else _code k ++ [cell].
Proof.
  destruct (cell_triggers cell) eqn:H.
  - rewrite do_execute_fires by done.
    pose proof (compile_frame env (compilation_unit k cell) (set_code [] k))
      as (Hc & _).
    destruct (_compile env _ _) as [[[]|exc] k']; [exact Hc|].
    destruct (is_Exception exc); exact Hc.
  - by rewrite do_execute_quiet.
Qed.

Lemma since_last_firing_quiet cells :
  existsb cell_triggers cells = false → since_last_firing cells = cells.
Proof.
  destruct cells as [|c rest]; [done|]. cbn [since_last_firing].
  intros H. rewrite H. reflexivity.
Qed.

(** The cells after the last one that fired. *)
Lemma since_last_firing_after pre c post :
  cell_triggers c = true → existsb cell_triggers post = false →
  since_last_firing (pre ++ c :: post) = post.
Proof.
  intros Hc Hpost. induction pre as [|p pre IH].
  - cbn [app since_last_firing existsb]. rewrite Hc.
    by apply since_last_firing_quiet.
  - change (since_last_firing (p :: (pre ++ c :: post)) = post).
    cbn [since_last_firing].
    assert (existsb cell_triggers (p :: pre ++ c :: post) = true) as ->; [|exact IH].
    cbn [existsb]. rewrite existsb_app. cbn [existsb]. rewrite Hc.
    by rewrite !orb_true_r.
Qed.

Lemma session_code steps k :
  _code (session steps k)
  = (if existsb cell_triggers (map snd steps) then [] else _code k)
    ++ since_last_firing (map snd steps).
Proof.
  revert k. induction steps as [|[env c] rest IH]; intros k.
  - simpl. by rewrite app_nil_r.
  - cbn [session map snd]. rewrite IH, do_execute_code.
    cbn [since_last_firing existsb _code set_count].
    destruct (existsb cell_triggers (map snd rest)) eqn:Hrest.
    + by rewrite orb_true_r.
    + rewrite orb_false_r. destruct (cell_triggers c); [done|].
      rewrite since_last_firing_quiet by done. by rewrite <- app_assoc.
Qed.

End Buffer.

(** ** Paths, files and texts *)

Section Files.

(** The path of a relative name in a directory is the name after a prefix
    that the directory alone fixes. *)
Lemma os_path_join_relative dir :
  ∃ prefix, ∀ name, Py.startswith_sep name = false →
                    Py.os_path_join dir name = prefix +:+ name.
Proof.
  destruct (String.eqb dir "" || Py.endswith_sep dir)%bool eqn:E.
  - exists dir. intros name H. unfold Py.os_path_join. by rewrite H, E.
  - exists (dir +:+ "/"). intros name H. unfold Py.os_path_join.
    rewrite H, E. by rewrite append_assoc.
Qed.

Lemma os_path_join_inj dir a b :
  Py.startswith_sep a = false → Py.startswith_sep b = false →
  Py.os_path_join dir a = Py.os_path_join dir b → a = b.
Proof.
  intros Ha Hb E. destruct (os_path_join_relative dir) as [prefix H].
  rewrite (H a Ha), (H b Hb) in E. by apply String.app_inj in E.
Qed.

Lemma paths_distinct k :
  infile k ≠ outfile k ∧ infile k ≠ manifest_copy k ∧ outfile k ≠ manifest_copy k.
Proof.
  unfold infile, outfile, manifest_copy.
  repeat split; intros E; by apply os_path_join_inj in E.
Qed.

(** A file that is there after a removal was attempted could not be
    removed. *)
Lemma swept_same env path disk :
  is_Some (swept env path disk !! path) → is_Some (remove_error env path).
Proof.
  unfold swept. destruct (disk !! path) eqn:E.
  - destruct (remove_error env path); [done|].
    rewrite lookup_delete_eq. intros [? H]. discriminate.
  - intros [? H]. congruence.
Qed.

Lemma swept_removed env path disk :
  remove_error env path = None → swept env path disk !! path = None.
Proof.
  intros H. unfold swept. rewrite H.
  destruct (disk !! path) eqn:E; [apply lookup_delete_eq|exact E].
Qed.

Lemma swept_other env path other disk :
  other ≠ path → swept env path disk !! other = disk !! other.
Proof.
  intros H. unfold swept.
  destruct (disk !! path), (remove_error env path); try done.
  by apply lookup_delete_ne.
Qed.

Lemma swept_is_Some env path other disk :
  is_Some (swept env path disk !! other) → is_Some (disk !! other).
Proof.
  destruct (decide (other = path)) as [->|H].
  - unfold swept. destruct (disk !! path) eqn:E; [|intros [? H]; congruence].
    destruct (remove_error env path); [by rewrite E|].
    rewrite lookup_delete_eq. intros [? H]. discriminate.
  - by rewrite swept_other.
Qed.

Lemma files_after_copy_other env k path :
  path ≠ manifest_copy k → files_after_copy env k !! path = files k !! path.
Proof.
  intros H. unfold files_after_copy.
  destruct (manifest env); [|done].
  destruct (shutil_copy env) as [|e [part|]]; try done;
    by rewrite lookup_insert_ne.
Qed.


(** What a call that fires the trigger leaves of the kernel that
    [_compile] leaves. *)
Lemma do_execute_fires_frame env cell k :
  cell_triggers cell = true →
  let compiled := snd (_compile env (compilation_unit k cell) (set_code [] k)) in
  let k' := snd (do_execute env cell k) in
  _code k' = _code compiled ∧ _tempdir k' = _tempdir compiled
  ∧ execution_count k' = execution_count compiled
  ∧ files k' = files compiled ∧ spawned k' = spawned compiled
  ∧ ∃ msgs, iopub k' = iopub compiled ++ msgs.
Proof.
  intros H. cbv zeta. rewrite do_execute_fires by done.
  destruct (_compile env _ _) as [[[]|exc] k'].
  - repeat split. exists []. by rewrite app_nil_r.
  - destruct (is_Exception exc); repeat split; cbn [snd iopub push_message].
    + by eexists.
    + exists []. by rewrite app_nil_r.
Qed.

End Files.
(** ** The trigger evaluator *)

Section TriggerClaims.

(** C1, as amended.  The trigger evaluator looks at the most recently
    submitted cell only and returns true exactly when the LAST line of that
    cell — the text after its last line break, or the whole cell when it
    has none — is the literal [-- compile-code], compared exactly (no
    whitespace is tolerated, case matters).  So the cell made of
    [module Main], a line break and the marker fires the trigger, and the
    cell made of the marker, a line break and [module Main exposing (..)]
    does not. *)
Theorem trigger_fires_on_last_line (k : ElmKernel) (buf : list string) (cell : string) :
  fst (_should_compile (set_code (buf ++ [cell]) k)) = Return (cell_triggers cell)
  ∧ (fst (_should_compile (set_code (buf ++ [cell]) k)) = Return true
     ↔ cell = marker ∨ ∃ pre, cell = pre +:+ Py.nl +:+ marker)
  ∧ cell_triggers ("module Main" +:+ Py.nl +:+ marker) = true
  ∧ cell_triggers (marker +:+ Py.nl +:+ "module Main exposing (..)") = false
  ∧ cell_triggers " -- compile-code" = false
  ∧ cell_triggers "-- compile-code " = false
  ∧ cell_triggers "-- Compile-Code" = false.
Proof.
  rewrite (should_compile_spec _ buf cell) by reflexivity. cbn [fst].
  split; [reflexivity|]. split; [|by repeat split].
  rewrite <- cell_triggers_iff. split; [by intros [= ->]|by intros ->].
Qed.

(** C1, refuted as stated: the first line of the first cell below is the
    marker and the trigger does not fire; the first line of the second is
    not the marker and the trigger fires. *)
Lemma trigger_first_line_counterexample :
  first_line (marker +:+ Py.nl +:+ "module Main exposing (..)") = marker
  ∧ fst (_should_compile
           (set_code [marker +:+ Py.nl +:+ "module Main exposing (..)"] Sample.fresh))
    = Return false
  ∧ first_line ("module Main" +:+ Py.nl +:+ marker) ≠ marker
  ∧ fst (_should_compile
           (set_code ["module Main" +:+ Py.nl +:+ marker] Sample.fresh))
    = Return true.
Proof. by repeat split. Qed.

(** C10.  A cell whose text ends with a line break never fires the
    trigger, whatever comes before the break: the line kept for the
    comparison still carries its line break, and is compared with the
    marker by plain equality.  The cell made of the marker and a line
    break is one of them. *)
Theorem trailing_line_break_never_triggers
    (k : ElmKernel) (buf : list string) (body : string) :
  fst (_should_compile (set_code (buf ++ [body +:+ Py.nl]) k)) = Return false
  ∧ (∃ line, Py.deque1 (Py.StringIO_lines (body +:+ Py.nl)) = [line +:+ Py.nl])
  ∧ fst (_should_compile (set_code (buf ++ [marker +:+ Py.nl]) k)) = Return false.
Proof.
  rewrite !(should_compile_spec _ buf _) by reflexivity. cbn [fst].
  rewrite cell_triggers_terminated. split; [done|]. split; [|done].
  destruct (readlines_terminated "" body) as [line E]. exists line.
  rewrite deque1_last. unfold Py.StringIO_lines. by rewrite E.
Qed.

(** C9.  Asking the trigger evaluator with an empty pending buffer raises
    an [AssertionError]; [do_execute] asks it after it has appended the
    submitted cell, so there the buffer is never empty and the evaluator
    returns; [do_execute] itself returns a reply, or lets through an
    exception of a collaborator that is not an [Exception]: it never raises
    the assertion. *)
Theorem trigger_assertion_unreachable (env : Env) (cell : string) (k : ElmKernel) :
  _should_compile (set_code [] k) = (Raise assertion_error, set_code [] k)
  ∧ exn_class_of assertion_error = AssertionError
  ∧ _code (set_code (_code k ++ [cell]) k) ≠ []
  ∧ _should_compile (set_code (_code k ++ [cell]) k)
    = (Return (cell_triggers cell), set_code (_code k ++ [cell]) k)
  ∧ ((∃ r k', do_execute env cell k = (Return r, k'))
     ∨ (∃ e k', do_execute env cell k = (Raise e, k')
                ∧ is_Exception e = false
                ∧ exn_class_of e ≠ AssertionError
                ∧ cell_triggers cell = true)).
Proof.
  split; [by apply should_compile_empty|]. split; [done|].
  split; [by destruct (_code k)|].
  split; [by apply (should_compile_spec _ (_code k))|].
  destruct (cell_triggers cell) eqn:H.
  - rewrite do_execute_fires by done.
    destruct (_compile env _ _) as [[[]|exc] k']; [left; eauto|].
    destruct (is_Exception exc) eqn:He; [left; eauto|].
    right. exists exc, k'. repeat split; try done.
    intros Hc. unfold is_Exception in He. by rewrite Hc in He.
  - rewrite do_execute_quiet by done. left. eauto.
Qed.

End TriggerClaims.

(** ** The pending buffer *)

Section BufferClaims.

(** C2.  When the trigger fires, the pending buffer is emptied before the
    compiler is started — every start of the compiler made during the
    call sees an empty buffer — and it is empty when [do_execute] is over,
    whatever the compilation did: success, compile failure or any
    exception. *)
Theorem pending_buffer_cleared (env : Env) (cell : string) (k : ElmKernel) :
  cell_triggers cell = true →
  _code (snd (do_execute env cell k)) = []
  ∧ ∃ procs, spawned (snd (do_execute env cell k)) = spawned k ++ procs
      ∧ Forall (λ s, pending_seen s = []) procs
      ∧ (procs = []
         ∨ procs = [elm_make_spawn env (compilation_unit k cell) (set_code [] k)]).
Proof.
  intros H. split; [by rewrite do_execute_code, H|].
  rewrite do_execute_fires by done.
  pose proof (compile_frame env (compilation_unit k cell) (set_code [] k))
    as (_ & _ & _ & _ & Hs).
  assert (∃ procs,
    spawned (snd (_compile env (compilation_unit k cell) (set_code [] k)))
    = spawned k ++ procs
    ∧ Forall (λ s, pending_seen s = []) procs
    ∧ (procs = []
       ∨ procs = [elm_make_spawn env (compilation_unit k cell) (set_code [] k)]))
    as (procs & E & Hp).
  { destruct Hs as [E|E].
    - exists []. rewrite app_nil_r. split; [exact E|]. split; [constructor|by left].
    - exists [elm_make_spawn env (compilation_unit k cell) (set_code [] k)].
      split; [exact E|]. split; [by repeat constructor|by right]. }
  exists procs. split; [|exact Hp].
  destruct (_compile env _ _) as [[[]|exc] k']; [exact E|].
  destruct (is_Exception exc); exact E.
Qed.

Lemma pending_buffer_cleared_witness :
  _code (snd (do_execute (Sample.compiles "var x = 1;") marker Sample.pending)) = []
  ∧ ∃ procs,
      spawned (snd (do_execute (Sample.compiles "var x = 1;") marker Sample.pending))
      = spawned Sample.pending ++ procs
      ∧ Forall (λ s, pending_seen s = []) procs
      ∧ (procs = []
         ∨ procs = [elm_make_spawn (Sample.compiles "var x = 1;")
                      (compilation_unit Sample.pending marker)
                      (set_code [] Sample.pending)]).
Proof.
  apply (pending_buffer_cleared (Sample.compiles "var x = 1;") marker Sample.pending).
  reflexivity.
Defined.

(** C6.  After any sequence of submitted cells, the pending buffer of a
    kernel holds, in order, exactly the cells submitted since the last one
    that fired the trigger; and when the next cell fires it, the unit
    written to the input file that the compiler finds is those cells and
    the firing cell itself, joined by line breaks. *)
Theorem pending_buffer_since_last_trigger
    (tempdir : string) (count : Z) (disk : gmap string string)
    (steps : list (Env * string)) (env : Env) (cell : string) :
  let k := session steps (init tempdir count disk) in
  _code k = since_last_firing (map snd steps)
  ∧ (cell_triggers cell = true →
     ∃ procs, spawned (snd (do_execute env cell k)) = spawned k ++ procs
       ∧ Forall (λ s, argv s = elm_make_args k
                      ∧ files_seen s !! infile k
                        = Some (Py.join Py.nl (since_last_firing (map snd steps) ++ [cell])))
                procs
       ∧ (copy_passes env = true →
          write_text env (infile k)
            (Py.join Py.nl (since_last_firing (map snd steps) ++ [cell])) = Written →
          length procs = 1)).
Proof.
  intros k.
  assert (_code k = since_last_firing (map snd steps)) as Hk.
  { unfold k. rewrite session_code. cbn [_code init].
    by destruct (existsb _ _). }
  split; [exact Hk|]. intros H. rewrite <- Hk.
  fold (compilation_unit k cell).
  destruct (do_execute_fires_frame env cell k H) as (_ & _ & _ & _ & -> & _).
  destruct (compile_cases env (compilation_unit k cell) (set_code [] k))
    as [(content & e & partial & _ & _ & _ & Hno & ->)
       |[(_ & e & partial & Hw & ->)|(_ & _ & ->)]];
    cbn [snd settled set_files spawned set_code].
  - exists []. rewrite app_nil_r. split; [done|]. split; [constructor|].
    intros Hcopy. congruence.
  - exists []. split; [done|]. split; [constructor|].
    intros _ Hw'. change (infile (set_code [] k)) with (infile k) in Hw. congruence.
  - eexists. split; [reflexivity|]. split; [|done].
    repeat constructor. apply lookup_insert_eq.
Qed.

Lemma pending_buffer_since_last_trigger_witness :
  ∃ procs,
    spawned (snd (do_execute (Sample.compiles "var x = 1;") marker
                    (session [(Sample.compiles "", "import Html")]
                       (init "/tmp/elm" 7 ∅))))
    = spawned (session [(Sample.compiles "", "import Html")] (init "/tmp/elm" 7 ∅))
      ++ procs
    ∧ length procs = 1.
Proof.
  destruct (pending_buffer_since_last_trigger "/tmp/elm" 7 ∅
              [(Sample.compiles "", "import Html")]
              (Sample.compiles "var x = 1;") marker) as [_ H].
  destruct (H eq_refl) as (procs & E & _ & Hlen).
  exists procs. split; [exact E|]. apply Hlen; reflexivity.
Defined.

End BufferClaims.

(** ** The outcomes of a triggered compilation *)

Section OutcomeClaims.


Lemma attempt_raises env code k disk' e :
  elm_make env code k = (disk', RunRaised e) →
  attempt env code (set_code [] k) = (disk', caught e).
Proof.
  intros Hrun. unfold attempt.
  change (elm_make env code (set_code [] k)) with (elm_make env code k).
  by rewrite Hrun.
Qed.

Lemma attempt_renders env code k disk' out content text :
  elm_make env code k = (disk', Completed out) →
  disk' !! outfile k = Some content →
  decode env content = Decoded text →
  attempt env code (set_code [] k)
  = (disk',
     (Return tt,
      [container (div_id_of (execution_count k));
       script_message (mount_script (Py.universal_newlines text)
                         (div_id_of (execution_count k)))])).
Proof.
  intros Hrun Hjs Hdec. unfold attempt.
  change (elm_make env code (set_code [] k)) with (elm_make env code k).
  change (outfile (set_code [] k)) with (outfile k).
  by rewrite Hrun, Hjs, Hdec.
Qed.

(** C3, refuted as stated: with no compiler to start, [do_execute] publishes
    two messages, not one, and returns its reply instead of raising. *)
Lemma missing_compiler_counterexample :
  fst (do_execute Sample.no_compiler marker Sample.pending) = Return (error_reply 7)
  ∧ iopub Sample.pending = []
  ∧ iopub (snd (do_execute Sample.no_compiler marker Sample.pending))
    = [error_panel "FileNotFoundError(2, 'No such file or directory')";
       error_panel "[Errno 2] No such file or directory: 'elm-make'"]
  ∧ ¬ ∃ m, iopub (snd (do_execute Sample.no_compiler marker Sample.pending)) = [m].
Proof.
  split; [reflexivity|]. split; [reflexivity|]. split; [reflexivity|].
  intros [m E]. discriminate E.
Qed.

(** C3, as amended.  Whenever the triggered compilation raises an
    [Exception], [do_execute] catches it, publishes a message with its
    [str()] as the last one, and returns a reply of status [error]: nothing
    is propagated to the host.  When the compiler cannot be started (or
    [subprocess.run] raises any [Exception] but a [CalledProcessError]),
    [_compile] has published one message with the [repr()] of the exception
    and raised it again, so that the call publishes exactly two messages,
    after the notice of the manifest copy if there is one.  What is raised
    and is not an [Exception] (a [KeyboardInterrupt], a [SystemExit]) is
    caught by neither handler: it reaches the host, and no message is
    published for it. *)
Theorem infrastructure_failure_reported (env : Env) (cell : string) (k : ElmKernel) :
  cell_triggers cell = true →
  (∀ e, fst (_compile env (compilation_unit k cell) (set_code [] k)) = Raise e →
     is_Exception e = true →
     ∃ k', do_execute env cell k = (Return (error_reply (execution_count k)), k')
       ∧ last (iopub k') = Some (error_panel (exn_str e)))
  ∧ (∀ e, fst (_compile env (compilation_unit k cell) (set_code [] k)) = Raise e →
     is_Exception e = false →
     do_execute env cell k
     = (Raise e, snd (_compile env (compilation_unit k cell) (set_code [] k))))
  ∧ (∀ disk' e,
       copy_passes env = true →
       write_text env (infile k) (compilation_unit k cell) = Written →
       elm_make env (compilation_unit k cell) k = (disk', RunRaised e) →
       CalledProcessError_stdout e = None →
       is_Exception e = true →
       fst (_compile env (compilation_unit k cell) (set_code [] k)) = Raise e
       ∧ iopub (snd (_compile env (compilation_unit k cell) (set_code [] k)))
         = iopub k ++ manifest_notice env k ++ [error_panel (exn_repr e)]
       ∧ ∃ k', do_execute env cell k = (Return (error_reply (execution_count k)), k')
           ∧ iopub k' = iopub k ++ manifest_notice env k
                        ++ [error_panel (exn_repr e); error_panel (exn_str e)])
  ∧ (∀ disk' e,
       copy_passes env = true →
       write_text env (infile k) (compilation_unit k cell) = Written →
       elm_make env (compilation_unit k cell) k = (disk', RunRaised e) →
       is_Exception e = false →
       ∃ k', do_execute env cell k = (Raise e, k')
           ∧ iopub k' = iopub k ++ manifest_notice env k).
Proof.
  intros H. split; [|split; [|split]].
  - intros e He Hexc. rewrite do_execute_fires by done.
    destruct (_compile env _ _) as [[[]|exc] k']; [discriminate|].
    injection He as ->. rewrite Hexc. eexists. split; [reflexivity|].
    cbn [iopub push_message]. apply last_snoc.
  - intros e He Hexc. rewrite do_execute_fires by done.
    destruct (_compile env _ _) as [[[]|exc] k']; [discriminate|].
    injection He as ->. by rewrite Hexc.
  - intros disk' e Hcopy Hw Hrun He Hexc.
    rewrite do_execute_fires by done.
    rewrite (compile_staged env _ (set_code [] k) Hcopy Hw).
    rewrite (attempt_raises _ _ _ _ _ Hrun). unfold caught. rewrite He, Hexc.
    cbn [fst snd]. rewrite Hexc.
    split; [reflexivity|]. split; [reflexivity|].
    eexists. split; [reflexivity|].
    cbn [iopub push_message settled set_code].
    by rewrite <- !app_assoc.
  - intros disk' e Hcopy Hw Hrun Hexc.
    assert (CalledProcessError_stdout e = None) as He.
    { destruct (CalledProcessError_stdout e) eqn:E; [|done].
      apply stdout_is_Exception in E. congruence. }
    rewrite do_execute_fires by done.
    rewrite (compile_staged env _ (set_code [] k) Hcopy Hw).
    rewrite (attempt_raises _ _ _ _ _ Hrun). unfold caught. rewrite He, Hexc.
    cbn [fst snd]. rewrite Hexc.
    eexists. split; [reflexivity|].
    cbn [iopub settled set_code]. by rewrite app_nil_r.
Qed.

Lemma infrastructure_failure_reported_witness :
  (∃ k', do_execute Sample.no_compiler marker Sample.pending
         = (Return (error_reply (execution_count Sample.pending)), k')
     ∧ iopub k' = iopub Sample.pending
                  ++ manifest_notice Sample.no_compiler Sample.pending
                  ++ [error_panel (exn_repr Sample.elm_make_missing);
                      error_panel (exn_str Sample.elm_make_missing)])
  ∧ (∃ k', do_execute Stub.interrupted marker Sample.pending
           = (Raise Stub.interrupt, k')
       ∧ iopub k' = iopub Sample.pending
                    ++ manifest_notice Stub.interrupted Sample.pending).
Proof.
  split.
  - destruct (infrastructure_failure_reported Sample.no_compiler marker Sample.pending
                eq_refl) as (_ & _ & H & _).
    apply (H (staged Sample.no_compiler (compilation_unit Sample.pending marker)
                Sample.pending) Sample.elm_make_missing); reflexivity.
  - destruct (infrastructure_failure_reported Stub.interrupted marker Sample.pending
                eq_refl) as (_ & _ & _ & H).
    apply (H (staged Stub.interrupted (compilation_unit Sample.pending marker)
                Sample.pending) Stub.interrupt); reflexivity.
Defined.




End OutcomeClaims.

Section SuccessClaims.





End SuccessClaims.

(** ** The scratch files and the manifest *)

Section StagingClaims.

Lemma settled_swept env k disk msgs procs :
  (is_Some (files (settled env k disk msgs procs) !! infile k) →
   is_Some (remove_error env (infile k)))
  ∧ (is_Some (files (settled env k disk msgs procs) !! outfile k) →
     is_Some (remove_error env (outfile k))).
Proof.
  cbn [settled files]. split.
  - apply swept_same.
  - intros H. apply swept_is_Some in H. by apply swept_same in H.
Qed.

Lemma compile_swept env code k :
  copy_passes env = true →
  (is_Some (files (snd (_compile env code k)) !! infile k) →
   is_Some (remove_error env (infile k)))
  ∧ (is_Some (files (snd (_compile env code k)) !! outfile k) →
     is_Some (remove_error env (outfile k))).
Proof.
  intros Hcopy.
  destruct (compile_cases env code k)
    as [(content & e & partial & _ & _ & _ & Hno & _)
       |[(_ & e & partial & _ & ->)|(_ & _ & ->)]];
    [congruence| |]; apply settled_swept.
Qed.

Lemma compile_copy_stops env code k :
  copy_passes env = false →
  files (snd (_compile env code k)) = files_after_copy env k
  ∧ spawned (snd (_compile env code k)) = spawned k
  ∧ iopub (snd (_compile env code k)) = iopub k.
Proof.
  intros Hcopy.
  destruct (compile_cases env code k)
    as [(content & e & partial & _ & _ & _ & _ & ->)
       |[(Hyes & _)|(Hyes & _)]]; [done| |]; congruence.
Qed.

Lemma do_execute_clean env cell k :
  (∀ path, remove_error env path = None) →
  scratch_clean k → scratch_clean (snd (do_execute env cell k)).
Proof.
  intros Hrm [Hin Hout]. destruct (cell_triggers cell) eqn:H.
  - destruct (do_execute_fires_frame env cell k H) as (_ & Hd & _ & Hf & _).
    pose proof (compile_frame env (compilation_unit k cell) (set_code [] k))
      as (_ & Hd' & _).
    unfold scratch_clean, infile, outfile. rewrite Hf, Hd, Hd'.
    fold (infile k) (outfile k).
    destruct (paths_distinct k) as (_ & Him & Hom).
    destruct (copy_passes env) eqn:Hcopy.
    + destruct (compile_swept env (compilation_unit k cell) (set_code [] k) Hcopy)
        as [H1 H2].
      change (infile (set_code [] k)) with (infile k) in H1.
      change (outfile (set_code [] k)) with (outfile k) in H2.
      split; apply eq_None_not_Some; intros Hs.
      * apply H1 in Hs. rewrite Hrm in Hs. by destruct Hs.
      * apply H2 in Hs. rewrite Hrm in Hs. by destruct Hs.
    + destruct (compile_copy_stops env (compilation_unit k cell) (set_code [] k) Hcopy)
        as (-> & _).
      change (files_after_copy env (set_code [] k)) with (files_after_copy env k).
      by rewrite !files_after_copy_other.
  - by rewrite do_execute_quiet.
Qed.

Lemma session_clean steps k :
  Forall (λ step, ∀ path, remove_error (fst step) path = None) steps →
  scratch_clean k → scratch_clean (session steps k).
Proof.
  revert k. induction steps as [|[env c] rest IH]; intros k Hsteps H; [done|].
  apply Forall_cons in Hsteps as [Hrm Hrest].
  cbn [session]. apply IH; [done|]. by apply do_execute_clean.
Qed.

(** C7, refuted as stated: in a new kernel, with a compiler that rejects
    the unit and an input file that cannot be removed, the call returns its
    reply with the input file still on disk. *)
Lemma scratch_file_left_counterexample :
  scratch_clean Sample.pending
  ∧ fst (do_execute (Stub.undeletable (Sample.rejects "TYPE MISMATCH"))
           marker Sample.pending) = Return (ok_reply 7)
  ∧ files (snd (do_execute (Stub.undeletable (Sample.rejects "TYPE MISMATCH"))
                  marker Sample.pending)) !! infile Sample.pending
    = Some ("module Main exposing (..)" +:+ Py.nl +:+ marker).
Proof. by repeat split. Qed.

(** C7, as amended.  On every exit path of a triggered compilation that
    has gone past the copy of the manifest — success, compile failure and
    any exception alike — the removal of the input file and of the output
    file is attempted before [_compile] is left, and a failure of a removal
    is ignored: a scratch file is on disk afterwards only if it could not be
    removed.  When the copy of the manifest raises, the call neither creates
    nor removes a scratch file and does not start the compiler.  So, as long
    as no removal fails, neither file is on disk after any call of a
    session that starts without them. *)
Theorem scratch_files_swept
    (steps : list (Env * string)) (env : Env) (cell : string) (k : ElmKernel) :
  (cell_triggers cell = true → copy_passes env = true →
   (is_Some (files (snd (do_execute env cell k)) !! infile k) →
    is_Some (remove_error env (infile k)))
   ∧ (is_Some (files (snd (do_execute env cell k)) !! outfile k) →
      is_Some (remove_error env (outfile k))))
  ∧ (cell_triggers cell = true → copy_passes env = false →
     files (snd (do_execute env cell k)) !! infile k = files k !! infile k
     ∧ files (snd (do_execute env cell k)) !! outfile k = files k !! outfile k
     ∧ spawned (snd (do_execute env cell k)) = spawned k)
  ∧ (Forall (λ step, ∀ path, remove_error (fst step) path = None) steps →
     scratch_clean k → scratch_clean (session steps k)).
Proof.
  split; [|split].
  - intros H Hcopy.
    destruct (do_execute_fires_frame env cell k H) as (_ & _ & _ & -> & _).
    apply (compile_swept env (compilation_unit k cell) (set_code [] k) Hcopy).
  - intros H Hcopy.
    destruct (do_execute_fires_frame env cell k H) as (_ & _ & _ & -> & -> & _).
    destruct (compile_copy_stops env (compilation_unit k cell) (set_code [] k) Hcopy)
      as (-> & -> & _).
    destruct (paths_distinct k) as (_ & Him & Hom).
    change (files_after_copy env (set_code [] k)) with (files_after_copy env k).
    by rewrite !files_after_copy_other.
  - apply session_clean.
Qed.

Lemma scratch_files_swept_witness :
  ((is_Some (files (snd (do_execute (Sample.rejects "TYPE MISMATCH") marker
                           Sample.pending)) !! infile Sample.pending) →
    is_Some (remove_error (Sample.rejects "TYPE MISMATCH") (infile Sample.pending)))
   ∧ (is_Some (files (snd (do_execute (Sample.rejects "TYPE MISMATCH") marker
                             Sample.pending)) !! outfile Sample.pending) →
      is_Some (remove_error (Sample.rejects "TYPE MISMATCH") (outfile Sample.pending))))
  ∧ (files (snd (do_execute (Stub.full_disk Sample.no_compiler) marker Sample.pending))
       !! infile Sample.pending = files Sample.pending !! infile Sample.pending
     ∧ files (snd (do_execute (Stub.full_disk Sample.no_compiler) marker Sample.pending))
         !! outfile Sample.pending = files Sample.pending !! outfile Sample.pending
     ∧ spawned (snd (do_execute (Stub.full_disk Sample.no_compiler) marker
                       Sample.pending)) = spawned Sample.pending)
  ∧ scratch_clean
      (session [(Sample.compiles "", "import Html"); (Sample.no_compiler, marker)]
         Sample.pending).
Proof.
  split; [|split].
  - apply (scratch_files_swept [] (Sample.rejects "TYPE MISMATCH") marker
             Sample.pending); reflexivity.
  - apply (scratch_files_swept [] (Stub.full_disk Sample.no_compiler) marker
             Sample.pending); reflexivity.
  - apply (scratch_files_swept
             [(Sample.compiles "", "import Html"); (Sample.no_compiler, marker)]
             Sample.no_compiler marker Sample.pending).
    + do 2 (apply List.Forall_cons; [intros; reflexivity|]). apply List.Forall_nil.
    + split; reflexivity.
Defined.

(** C8.  With no manifest in the working directory the copy step does
    nothing: no message, no exception, the kernel is as it was.  When the
    copy fails for lack of permission, one error message is published and
    the step returns normally, having touched no file but, possibly, the
    copy itself; the call is not aborted and the compilation goes on: the
    unit is written to the input file and the compiler is started on it,
    and the call ends as the compiler decides — with status [ok] and the
    output of the compiler after the notice when it rejects the unit, with
    status [ok] and the container and the script after the notice when it
    succeeds. *)
Theorem manifest_copy_step (env : Env) (cell : string) (k : ElmKernel) :
  (manifest env = None →
   _copy_elm_package_file_to_tempdir env k = (Return tt, k))
  ∧ (∀ content e partial,
       manifest env = Some content → shutil_copy env = CopyRaised e partial →
       is_PermissionError e = true →
       _copy_elm_package_file_to_tempdir env k
       = (Return tt,
          Kernel (_code k) (_tempdir k) (execution_count k) (files_after_copy env k)
                 (iopub k ++ [permission_panel k]) (spawned k))
       ∧ (∀ path, path ≠ manifest_copy k →
                  files_after_copy env k !! path = files k !! path)
       ∧ (cell_triggers cell = true →
          write_text env (infile k) (compilation_unit k cell) = Written →
          (∃ s, spawned (snd (do_execute env cell k)) = spawned k ++ [s]
                ∧ argv s = elm_make_args k
                ∧ files_seen s !! infile k = Some (compilation_unit k cell))
          ∧ (∀ disk' e' out,
               elm_make env (compilation_unit k cell) k = (disk', RunRaised e') →
               CalledProcessError_stdout e' = Some out →
               ∃ k', do_execute env cell k
                     = (Return (ok_reply (execution_count k)), k')
                 ∧ iopub k' = iopub k ++ [permission_panel k; error_panel out])
          ∧ (∀ disk' out content' text,
               elm_make env (compilation_unit k cell) k = (disk', Completed out) →
               disk' !! outfile k = Some content' →
               decode env content' = Decoded text →
               ∃ k', do_execute env cell k
                     = (Return (ok_reply (execution_count k)), k')
                 ∧ iopub k'
                   = iopub k
                     ++ [permission_panel k;
                         container (div_id_of (execution_count k));
                         script_message
                           (mount_script (Py.universal_newlines text)
                              (div_id_of (execution_count k)))]))).
Proof.
  split.
  { intros Hm. unfold _copy_elm_package_file_to_tempdir. by rewrite Hm. }
  intros content e partial Hm Hc He.
  assert (copy_passes env = true) as Hcopy
    by (unfold copy_passes; by rewrite Hm, Hc).
  assert (∀ k0, _tempdir k0 = _tempdir k →
                manifest_notice env k0 = [permission_panel k]) as Hnotice.
  { intros k0 Hd. unfold manifest_notice, permission_panel.
    by rewrite Hm, Hc, He, Hd. }
  split; [|split].
  - rewrite (copy_step_passes _ _ Hcopy). by rewrite (Hnotice k).
  - intros path Hne. by apply files_after_copy_other.
  - intros H Hw.
    pose proof (compile_staged env (compilation_unit k cell) (set_code [] k) Hcopy Hw)
      as Hcompile.
    split; [|split].
    + exists (elm_make_spawn env (compilation_unit k cell) (set_code [] k)).
      destruct (do_execute_fires_frame env cell k H) as (_ & _ & _ & _ & -> & _).
      rewrite Hcompile. split; [done|]. split; [done|]. apply lookup_insert_eq.
    + intros disk' e' out Hrun He'. rewrite do_execute_fires by done.
      rewrite Hcompile, (attempt_raises _ _ _ _ _ Hrun). unfold caught. rewrite He'.
      eexists. split; [reflexivity|].
      cbn [fst snd iopub settled set_code]. by rewrite (Hnotice (set_code [] k)).
    + intros disk' out content' text Hrun Hjs Hdec. rewrite do_execute_fires by done.
      rewrite Hcompile, (attempt_renders _ _ _ _ _ _ _ Hrun Hjs Hdec).
      eexists. split; [reflexivity|].
      cbn [fst snd iopub settled set_code]. by rewrite (Hnotice (set_code [] k)).
Qed.

Lemma manifest_copy_step_witness :
  _copy_elm_package_file_to_tempdir (Sample.compiles "var x = 1;") Sample.pending
  = (Return tt, Sample.pending)
  ∧ (∃ s, spawned (snd (do_execute
                          (Sample.with_denied_manifest (Sample.rejects "TYPE MISMATCH"))
                          marker Sample.pending))
          = spawned Sample.pending ++ [s]
        ∧ argv s = elm_make_args Sample.pending
        ∧ files_seen s !! infile Sample.pending
          = Some (compilation_unit Sample.pending marker))
  ∧ (∃ k', do_execute (Sample.with_denied_manifest (Sample.rejects "TYPE MISMATCH"))
             marker Sample.pending
           = (Return (ok_reply (execution_count Sample.pending)), k')
       ∧ iopub k' = iopub Sample.pending
                    ++ [permission_panel Sample.pending; error_panel "TYPE MISMATCH"]).
Proof.
  split.
  - apply (manifest_copy_step (Sample.compiles "var x = 1;") marker Sample.pending).
    reflexivity.
  - destruct (manifest_copy_step
                (Sample.with_denied_manifest (Sample.rejects "TYPE MISMATCH"))
                marker Sample.pending) as [_ H].
    destruct (H "{}" Sample.denied None eq_refl eq_refl eq_refl) as (_ & _ & H').
    destruct (H' eq_refl eq_refl) as (Hs & Hfail & _).
    split; [exact Hs|].
    apply (Hfail (staged (Sample.with_denied_manifest (Sample.rejects "TYPE MISMATCH"))
                    (compilation_unit Sample.pending marker) Sample.pending)
             (Exn (CalledProcessError 1 "TYPE MISMATCH")
                  "Command 'elm-make' returned non-zero exit status 1."
                  "CalledProcessError(1, 'elm-make')") "TYPE MISMATCH");
      reflexivity.
Defined.

End StagingClaims.
(** * Further properties *)

(** ** Lines, paths and identifiers *)

Section Texts.

Lemma readlines_concat cur text :
  concat_lines (Py.readlines_from cur text) = cur +:+ text.
Proof.
  revert cur. induction text as [|c rest IH]; intros cur.
  - rewrite append_empty_r. destruct cur as [|x cur]; [done|].
    apply (append_empty_r (String x cur)).
  - simpl. destruct (Ascii.eqb_spec c Py.LF) as [->|Hc].
    + cbn [concat_lines fold_right]. fold (concat_lines (Py.readlines_from "" rest)).
      rewrite IH. by rewrite append_assoc.
    + rewrite IH. by rewrite append_cons.
Qed.

Lemma readlines_shape cur text :
  has_LF cur = false →
  Forall (λ line, line ≠ EmptyString
                  ∧ ∃ body, has_LF body = false
                            ∧ (line = body ∨ line = body +:+ Py.nl))
         (Py.readlines_from cur text).
Proof.
  revert cur. induction text as [|c rest IH]; intros cur Hcur.
  - destruct cur as [|x cur]; constructor; [|constructor].
    split; [done|]. exists (String x cur). by split; [|left].
  - simpl. destruct (Ascii.eqb_spec c Py.LF) as [->|Hc].
    + constructor; [|by apply IH]. split.
      * by destruct cur.
      * exists cur. by split; [|right].
    + apply IH. rewrite has_LF_append, Hcur. simpl.
      destruct (Ascii.eqb_spec c Py.LF); [done|]. reflexivity.
Qed.

(** X14.  The lines that iterating [io.StringIO(text)] gives, put back
    together, are the text: nothing is lost or added, terminators
    included.  No line is empty, and a line has no line break but,
    possibly, one at its end. *)
Theorem StringIO_lines_round_trip (text : string) :
  concat_lines (Py.StringIO_lines text) = text
  ∧ Forall (λ line, line ≠ EmptyString
                    ∧ ∃ body, has_LF body = false
                              ∧ (line = body ∨ line = body +:+ Py.nl))
           (Py.StringIO_lines text).
Proof.
  split; [apply readlines_concat|by apply readlines_shape].
Qed.

(** X9.  Whatever the name of the scratch directory, the input file, the
    output file and the copy of the manifest are three different paths:
    writing one never overwrites another. *)
Theorem scratch_paths_distinct (k : ElmKernel) :
  infile k ≠ outfile k ∧ infile k ≠ manifest_copy k ∧ outfile k ≠ manifest_copy k.
Proof. apply paths_distinct. Qed.

Lemma str_int_inj n m : Py.str_int n = Py.str_int m → n = m.
Proof.
  assert (∀ z, Z.to_int z ≠ Decimal.Pos Decimal.Nil
               ∧ Z.to_int z ≠ Decimal.Neg Decimal.Nil) as Hnil.
  { intros [|p|p]; split; simpl; try discriminate;
      intros [= E]; by apply DecimalPos.Unsigned.to_uint_nonnil in E. }
  unfold Py.str_int. intros E. apply DecimalZ.to_int_inj.
  destruct (Hnil n) as [Hn1 Hn2]. destruct (Hnil m) as [Hm1 Hm2].
  pose proof (NilZero.isi _ Hn1 Hn2) as In.
  pose proof (NilZero.isi _ Hm1 Hm2) as Im.
  rewrite E in In. congruence.
Qed.

Lemma length_append (a b : string) :
  String.length (a +:+ b) = String.length a + String.length b.
Proof.
  induction a as [|x a IH]; [reflexivity|].
  change (S (String.length (a +:+ b)) = S (String.length a + String.length b)).
  by rewrite IH.
Qed.

Lemma append_inj_r (a b s : string) : a +:+ s = b +:+ s → a = b.
Proof.
  revert b. induction a as [|x a IH]; intros [|y b] E.
  - done.
  - exfalso. assert (String.length s = String.length (String y b +:+ s)) as L
      by by rewrite <- E.
    rewrite length_append in L. simpl in L. lia.
  - exfalso. assert (String.length (String x a +:+ s) = String.length s) as L
      by by rewrite E.
    rewrite length_append in L. simpl in L. lia.
  - injection E as -> E. f_equal. by apply IH.
Qed.

Lemma container_inj (a b : string) : container a = container b → a = b.
Proof.
  intros E.
  assert (data (container a) !! "text/html" = data (container b) !! "text/html")
    as E' by by rewrite E.
  unfold container in E'. cbn [data] in E'.
  rewrite !lookup_singleton_eq in E'. injection E' as E'.
  exact (append_inj_r a b (Py.dquote +:+ "></div>") E').
Qed.

(** X12.  Two executions with different counters get different container
    identifiers, hence different container elements: the script of one
    never mounts in the element of another. *)
Theorem container_ids_distinct (n m : Z) :
  n ≠ m →
  div_id_of n ≠ div_id_of m ∧ container (div_id_of n) ≠ container (div_id_of m).
Proof.
  intros Hnm.
  assert (div_id_of n ≠ div_id_of m) as Hid.
  { unfold div_id_of. intros E. apply String.app_inj in E.
    by apply str_int_inj in E. }
  split; [exact Hid|]. intros E. by apply container_inj in E.
Qed.

Lemma container_ids_distinct_witness :
  div_id_of 7 ≠ div_id_of 8 ∧ container (div_id_of 7) ≠ container (div_id_of 8).
Proof. apply (container_ids_distinct 7 8). lia. Defined.

End Texts.

(** ** What a call does and does not do *)

Section Effects.

Lemma error_panel_shape msg : display_shape (error_panel msg).
Proof. repeat split. exists ("<pre>" +:+ msg +:+ "</pre>"). by left. Qed.

Lemma container_shape div_id : display_shape (container div_id).
Proof. repeat split. eexists. by left. Qed.

Lemma script_message_shape script : display_shape (script_message script).
Proof. repeat split. exists script. by right. Qed.

Lemma manifest_notice_shape env k :
  Forall display_shape (manifest_notice env k)
  ∧ (length (manifest_notice env k) ≤ 1)%nat.
Proof.
  unfold manifest_notice.
  destruct (manifest env); [|by split; [constructor|simpl; lia]].
  destruct (shutil_copy env) as [|e partial]; [by split; [constructor|simpl; lia]|].
  destruct (is_PermissionError e); split; simpl; try lia; repeat constructor.
  apply error_panel_shape.
Qed.

Lemma caught_effects e :
  Forall display_shape (snd (caught e))
  ∧ (length (snd (caught e)) ≤ 1)%nat.
Proof.
  unfold caught. destruct (CalledProcessError_stdout e).
  - split; [|simpl; lia]. repeat constructor. apply error_panel_shape.
  - destruct (is_Exception e); (split; [|simpl; lia]); repeat constructor.
    apply error_panel_shape.
Qed.

Lemma attempt_effects env code k :
  Forall display_shape (snd (snd (attempt env code k)))
  ∧ (length (snd (snd (attempt env code k)))
     ≤ match fst (snd (attempt env code k)) with
       | Return _ => 2
       | Raise _ => 1
       end)%nat.
Proof.
  assert (∀ e, Forall display_shape (snd (caught e))
               ∧ (length (snd (caught e))
                  ≤ match fst (caught e) with Return _ => 2 | Raise _ => 1 end)%nat)
    as Hcaught.
  { intros e. destruct (caught_effects e) as [Hs Hl]. split; [done|].
    destruct (fst (caught e)); lia. }
  unfold attempt. destruct (elm_make env code k) as [disk' [out|e]]; [|apply Hcaught].
  destruct (disk' !! outfile k) as [content|]; [|apply Hcaught].
  destruct (decode env content) as [text|e]; [|apply Hcaught].
  cbn [fst snd]. split; [|simpl; lia]. repeat constructor.
  - apply container_shape.
  - apply script_message_shape.
Qed.

(** What [_compile] adds to the messages and to the processes started. *)
Lemma compile_effects env code k :
  ∃ msgs procs,
    iopub (snd (_compile env code k)) = iopub k ++ msgs
    ∧ spawned (snd (_compile env code k)) = spawned k ++ procs
    ∧ Forall display_shape msgs
    ∧ (length msgs ≤ match fst (_compile env code k) with
                     | Return _ => 3
                     | Raise _ => 2
                     end)%nat
    ∧ (procs = [] ∨ procs = [elm_make_spawn env code k]).
Proof.
  pose proof (manifest_notice_shape env k) as [Hshape Hlen].
  destruct (compile_cases env code k)
    as [(content & e & partial & _ & _ & _ & _ & ->)
       |[(_ & e & partial & _ & ->)|(_ & _ & ->)]];
    cbn [fst snd settled set_files iopub spawned].
  - exists [], []. rewrite !app_nil_r. repeat split; [constructor|simpl; lia|by left].
  - exists (manifest_notice env k ++ []), []. rewrite !app_nil_r.
    repeat split; [done|lia|by left].
  - destruct (attempt_effects env code k) as [Hs Hl].
    eexists _, _. split; [reflexivity|]. split; [reflexivity|].
    split; [by apply Forall_app|]. split; [|by right].
    rewrite length_app. destruct (fst (snd (attempt env code k))); lia.
Qed.

(** What one call of [do_execute] adds, and what it leaves alone. *)
Lemma execute_effects env cell k :
  _tempdir (snd (do_execute env cell k)) = _tempdir k
  ∧ execution_count (snd (do_execute env cell k)) = execution_count k
  ∧ ∃ msgs procs,
      iopub (snd (do_execute env cell k)) = iopub k ++ msgs
      ∧ spawned (snd (do_execute env cell k)) = spawned k ++ procs
      ∧ Forall display_shape msgs
      ∧ (length msgs ≤ (if cell_triggers cell then 3 else 0))%nat
      ∧ (length procs ≤ (if cell_triggers cell then 1 else 0))%nat
      ∧ Forall (λ s, argv s = elm_make_args k ∧ cwd s = _tempdir k) procs.
Proof.
  destruct (cell_triggers cell) eqn:H.
  - rewrite do_execute_fires by done.
    pose proof (compile_frame env (compilation_unit k cell) (set_code [] k))
      as (_ & Hd & Hn & _).
    pose proof (compile_effects env (compilation_unit k cell) (set_code [] k))
      as (msgs & procs & Hio & Hsp & Hshape & Hlen & Hprocs).
    assert ((length procs ≤ 1)%nat
            ∧ Forall (λ s, argv s = elm_make_args k ∧ cwd s = _tempdir k) procs)
      as [Hlp Hargs].
    { destruct Hprocs as [-> | ->]; split; simpl; try lia; by repeat constructor. }
    destruct (_compile env _ _) as [[[]|exc] k']; cbn [fst snd] in *.
    + split; [done|]. split; [done|]. by exists msgs, procs.
    + destruct (is_Exception exc); cbn [snd].
      * split; [done|]. split; [done|].
        exists (msgs ++ [error_panel (exn_str exc)]), procs.
        cbn [iopub spawned push_message]. rewrite Hio, app_assoc.
        split; [done|]. split; [done|]. split.
        -- apply Forall_app. split; [done|]. repeat constructor.
           apply error_panel_shape.
        -- rewrite length_app. simpl. split; [lia|done].
      * split; [done|]. split; [done|]. exists msgs, procs.
        repeat split; try done. lia.
  - rewrite do_execute_quiet by done. split; [done|]. split; [done|].
    exists [], []. cbn [snd set_code iopub spawned]. rewrite !app_nil_r.
    repeat split; try constructor; simpl; lia.
Qed.

Lemma session_effects steps k :
  _tempdir (session steps k) = _tempdir k
  ∧ ∃ msgs procs,
      iopub (session steps k) = iopub k ++ msgs
      ∧ spawned (session steps k) = spawned k ++ procs
      ∧ Forall display_shape msgs
      ∧ (length msgs ≤ 3 * firing_count (map snd steps))%nat
      ∧ (length procs ≤ firing_count (map snd steps))%nat
      ∧ Forall (λ s, argv s = elm_make_args k ∧ cwd s = _tempdir k) procs.
Proof.
  revert k. induction steps as [|[env c] rest IH]; intros k.
  - split; [done|]. exists [], []. cbn [session map firing_count].
    rewrite !app_nil_r. repeat split; try constructor; lia.
  - cbn [session map snd firing_count].
    set (k0 := set_count (host_count env (execution_count k)) k).
    destruct (execute_effects env c k0)
      as (Hd & _ & m1 & p1 & Hio1 & Hsp1 & Hs1 & Hl1 & Hp1 & Ha1).
    destruct (IH (snd (do_execute env c k0)))
      as (Hd' & m2 & p2 & Hio2 & Hsp2 & Hs2 & Hl2 & Hp2 & Ha2).
    change (_tempdir k0) with (_tempdir k) in *.
    change (iopub k0) with (iopub k) in *.
    change (spawned k0) with (spawned k) in *.
    change (elm_make_args k0) with (elm_make_args k) in *.
    split; [congruence|].
    exists (m1 ++ m2), (p1 ++ p2).
    rewrite Hio2, Hio1, Hsp2, Hsp1, !app_assoc.
    split; [done|]. split; [done|]. split; [by apply Forall_app|].
    rewrite !length_app. split; [|split].
    + destruct (cell_triggers c); lia.
    + destruct (cell_triggers c); lia.
    + apply Forall_app. split; [done|].
      unfold elm_make_args, infile, outfile in *. by rewrite Hd in Ha2.
Qed.

(** X1.  A cell that does not fire the trigger is only put in the pending
    buffer: no message is published, no process started, no file touched,
    and the reply has status [ok] with an empty payload. *)
Theorem quiet_cell_only_buffers (env : Env) (cell : string) (k : ElmKernel) :
  cell_triggers cell = false →
  do_execute env cell k
  = (Return (Reply "ok" (execution_count k) (Some []) (Some ∅)),
     Kernel (_code k ++ [cell]) (_tempdir k) (execution_count k)
            (files k) (iopub k) (spawned k)).
Proof. intros H. by rewrite do_execute_quiet. Qed.

Lemma quiet_cell_only_buffers_witness :
  do_execute Sample.no_compiler "import Html" Sample.pending
  = (Return (Reply "ok" (execution_count Sample.pending) (Some []) (Some ∅)),
     Kernel (_code Sample.pending ++ ["import Html"]) (_tempdir Sample.pending)
            (execution_count Sample.pending) (files Sample.pending)
            (iopub Sample.pending) (spawned Sample.pending)).
Proof.
  apply (quiet_cell_only_buffers Sample.no_compiler "import Html" Sample.pending).
  reflexivity.
Defined.

(** X2.  [do_execute] never changes the execution counter, and ends in one
    of three ways.  It returns a reply of status [error], with no [payload]
    and no [user_expressions] key, exactly when the cell fired the trigger
    and [_compile] raised an [Exception]; it raises, with no message of its
    own, exactly when the cell fired the trigger and [_compile] raised
    something that is not an [Exception], which it passes on as it is; it
    returns a reply of status [ok], with an empty payload and no user
    expressions, otherwise.  A reply carries the execution counter. *)
Theorem reply_reports_compile_outcome (env : Env) (cell : string) (k : ElmKernel) :
  execution_count (snd (do_execute env cell k)) = execution_count k
  ∧ ((∃ r, fst (do_execute env cell k) = Return r
           ∧ reply_execution_count r = execution_count k
           ∧ status r = "error" ∧ payload r = None ∧ user_expressions r = None
           ∧ cell_triggers cell = true
           ∧ ∃ e, fst (_compile env (compilation_unit k cell) (set_code [] k)) = Raise e
                  ∧ is_Exception e = true)
     ∨ (∃ e, do_execute env cell k
             = (Raise e, snd (_compile env (compilation_unit k cell) (set_code [] k)))
             ∧ cell_triggers cell = true
             ∧ fst (_compile env (compilation_unit k cell) (set_code [] k)) = Raise e
             ∧ is_Exception e = false)
     ∨ (∃ r, fst (do_execute env cell k) = Return r
             ∧ reply_execution_count r = execution_count k
             ∧ status r = "ok" ∧ payload r = Some [] ∧ user_expressions r = Some ∅
             ∧ (cell_triggers cell = false
                ∨ fst (_compile env (compilation_unit k cell) (set_code [] k))
                  = Return tt))).
Proof.
  pose proof (execute_effects env cell k) as (_ & Hn & _). split; [exact Hn|].
  destruct (cell_triggers cell) eqn:H.
  - rewrite do_execute_fires in * by done.
    destruct (_compile env _ _) as [[[]|exc] k']; cbn [fst snd] in *.
    + right. right. eexists. split; [reflexivity|]. repeat split. by right.
    + destruct (is_Exception exc) eqn:Hexc.
      * left. eexists. split; [reflexivity|]. repeat split. by exists exc.
      * right. left. by exists exc.
  - rewrite do_execute_quiet in * by done.
    right. right. eexists. split; [reflexivity|]. repeat split. by left.
Qed.

(** X3.  [do_execute] itself never changes the execution counter, which is
    the host's.  Over any session the kernel keeps its scratch directory,
    only adds to the messages published and to the processes started,
    publishes at most three messages and starts at most one process for each
    cell that fires the trigger — none for the other cells — and every
    process it starts is [elm-make] on the input file, with [--yes] and the
    output file, run in the scratch directory. *)
Theorem session_effects_bounded
    (steps : list (Env * string)) (env : Env) (cell : string) (k : ElmKernel) :
  execution_count (snd (do_execute env cell k)) = execution_count k
  ∧ _tempdir (session steps k) = _tempdir k
  ∧ ∃ msgs procs,
      iopub (session steps k) = iopub k ++ msgs
      ∧ spawned (session steps k) = spawned k ++ procs
      ∧ (length msgs ≤ 3 * firing_count (map snd steps))%nat
      ∧ (length procs ≤ firing_count (map snd steps))%nat
      ∧ Forall (λ s, argv s = ["elm-make"; infile k; "--yes";
                               "--output=" +:+ outfile k]
                     ∧ cwd s = _tempdir k) procs.
Proof.
  destruct (execute_effects env cell k) as (_ & Hn & _).
  destruct (session_effects steps k)
    as (Hd & msgs & procs & Hio & Hsp & _ & Hl & Hp & Ha).
  split; [done|]. split; [done|]. by exists msgs, procs.
Qed.

(** X4.  Every message the kernel publishes in a session is a
    [display_data] message with empty metadata and a single entry, of type
    [text/html] or [application/javascript]. *)
Theorem published_messages_shape (steps : list (Env * string)) (k : ElmKernel) :
  ∃ msgs, iopub (session steps k) = iopub k ++ msgs
          ∧ Forall (λ m, msg_type m = "display_data" ∧ metadata m = ∅
                         ∧ ∃ text, data m = {[ "text/html" := text ]}
                                   ∨ data m = {[ "application/javascript" := text ]})
                   msgs.
Proof.
  destruct (session_effects steps k)
    as (_ & msgs & procs & Hio & _ & Hshape & _).
  by exists msgs.
Qed.

End Effects.

(** ** The paths of a compilation that fail before or after the compiler *)

Section Failures.

(** X5.  When writing the input file raises an [Exception], the compiler
    is not started; the call publishes one message, the [str()] of the
    exception (after the notice of the manifest copy, if any), and replies
    with status [error]; the pending buffer is emptied all the same, and the
    removal of what was left of the input file is attempted: it is gone
    unless it cannot be removed. *)
Theorem input_write_failure
    (env : Env) (cell : string) (k : ElmKernel) (e : exn) (partial : option string) :
  cell_triggers cell = true →
  copy_passes env = true →
  write_text env (infile k) (compilation_unit k cell) = WriteRaised e partial →
  is_Exception e = true →
  ∃ k', do_execute env cell k = (Return (error_reply (execution_count k)), k')
    ∧ iopub k' = iopub k ++ manifest_notice env k ++ [error_panel (exn_str e)]
    ∧ spawned k' = spawned k
    ∧ _code k' = []
    ∧ (remove_error env (infile k) = None → files k' !! infile k = None)
    ∧ (remove_error env (outfile k) = None → files k' !! outfile k = None).
Proof.
  intros H Hcopy Hw Hexc. rewrite do_execute_fires by done.
  rewrite (compile_write_raises env _ (set_code [] k) e partial Hcopy Hw), Hexc.
  eexists. split; [reflexivity|].
  cbn [iopub spawned _code files push_message settled set_code].
  rewrite !app_nil_r, <- !app_assoc.
  change (infile (set_code [] k)) with (infile k).
  change (outfile (set_code [] k)) with (outfile k).
  destruct (paths_distinct k) as (Hio & _). repeat split.
  - intros Hrm. by apply swept_removed.
  - intros Hrm. rewrite swept_other by done. by apply swept_removed.
Qed.

Lemma input_write_failure_witness :
  ∃ k', do_execute (Stub.unwritable Sample.no_compiler) marker Sample.pending
        = (Return (error_reply (execution_count Sample.pending)), k')
    ∧ iopub k' = iopub Sample.pending
                 ++ manifest_notice (Stub.unwritable Sample.no_compiler) Sample.pending
                 ++ [error_panel (exn_str Stub.no_space)]
    ∧ spawned k' = spawned Sample.pending
    ∧ _code k' = []
    ∧ (remove_error (Stub.unwritable Sample.no_compiler) (infile Sample.pending) = None →
       files k' !! infile Sample.pending = None)
    ∧ (remove_error (Stub.unwritable Sample.no_compiler) (outfile Sample.pending) = None →
       files k' !! outfile Sample.pending = None).
Proof.
  apply (input_write_failure (Stub.unwritable Sample.no_compiler) marker
           Sample.pending Stub.no_space (Some "")); reflexivity.
Defined.

(** X6.  When the copy of the manifest raises an [Exception] that is not a
    [PermissionError], the compilation stops there: the input file is not
    written, the compiler is not started, one message with the [str()] of
    the exception is published and the reply has status [error]; the cells
    that were pending are dropped.  On disk nothing has changed but,
    possibly, the destination of the copy. *)
Theorem manifest_copy_failure_aborts
    (env : Env) (cell : string) (k : ElmKernel)
    (content : string) (e : exn) (partial : option string) :
  cell_triggers cell = true →
  manifest env = Some content → shutil_copy env = CopyRaised e partial →
  is_PermissionError e = false →
  is_Exception e = true →
  do_execute env cell k
  = (Return (Reply "error" (execution_count k) None None),
     Kernel [] (_tempdir k) (execution_count k) (files_after_copy env k)
            (iopub k ++ [error_panel (exn_str e)]) (spawned k))
  ∧ ∀ path, path ≠ manifest_copy k → files_after_copy env k !! path = files k !! path.
Proof.
  intros H Hm Hc He Hexc. split.
  - rewrite do_execute_fires by done.
    by rewrite (compile_copy_raises env _ (set_code [] k) content e partial Hm Hc He),
      Hexc.
  - intros path Hne. by apply files_after_copy_other.
Qed.

Lemma manifest_copy_failure_aborts_witness :
  do_execute (Stub.full_disk (Sample.compiles "var x = 1;")) marker Sample.pending
  = (Return (Reply "error" (execution_count Sample.pending) None None),
     Kernel [] (_tempdir Sample.pending) (execution_count Sample.pending)
            (files_after_copy (Stub.full_disk (Sample.compiles "var x = 1;"))
               Sample.pending)
            (iopub Sample.pending ++ [error_panel (exn_str Stub.no_space)])
            (spawned Sample.pending))
  ∧ ∀ path, path ≠ manifest_copy Sample.pending →
            files_after_copy (Stub.full_disk (Sample.compiles "var x = 1;"))
              Sample.pending !! path
            = files Sample.pending !! path.
Proof.
  apply (manifest_copy_failure_aborts (Stub.full_disk (Sample.compiles "var x = 1;"))
           marker Sample.pending "{}" Stub.no_space (Some "")); reflexivity.
Defined.



End Failures.

(** ** What the compiler is given *)

Section Staging.

Lemma attempt_files env code k : fst (attempt env code k) = fst (elm_make env code k).
Proof.
  unfold attempt. destruct (elm_make env code k) as [disk' [out|e]]; [|done].
  destruct (disk' !! outfile k) as [content|]; [|done].
  by destruct (decode env content).
Qed.

Lemma compile_when_staged env code k :
  copy_passes env = true →
  write_text env (infile k) code = Written →
  spawned (snd (_compile env code k)) = spawned k ++ [elm_make_spawn env code k]
  ∧ files (snd (_compile env code k))
    = swept env (infile k) (swept env (outfile k) (fst (elm_make env code k))).
Proof.
  intros Hcopy Hw. rewrite (compile_staged env code k Hcopy Hw).
  cbn [snd settled spawned files]. by rewrite attempt_files.
Qed.

(** X8.  When the manifest is there and can be copied, the compiler finds
    the copy in the scratch directory beside the input file, which holds the
    compilation unit; the kernel does not create the output file for it; and
    the kernel does not remove the copy afterwards. *)
Theorem manifest_staged_for_compiler
    (env : Env) (cell : string) (k : ElmKernel) (content : string) :
  cell_triggers cell = true →
  manifest env = Some content → shutil_copy env = Copied →
  write_text env (infile k) (compilation_unit k cell) = Written →
  ∃ s, spawned (snd (do_execute env cell k)) = spawned k ++ [s]
    ∧ files_seen s !! manifest_copy k = Some content
    ∧ files_seen s !! infile k = Some (compilation_unit k cell)
    ∧ files_seen s !! outfile k = files k !! outfile k
    ∧ files (snd (do_execute env cell k)) !! manifest_copy k
      = fst (elm_make env (compilation_unit k cell) k) !! manifest_copy k.
Proof.
  intros H Hm Hc Hw.
  assert (copy_passes env = true) as Hcopy by (unfold copy_passes; by rewrite Hm, Hc).
  destruct (paths_distinct k) as (Hio & Him & Hom).
  destruct (compile_when_staged env (compilation_unit k cell) (set_code [] k) Hcopy Hw)
    as [Hsp Hfiles].
  destruct (do_execute_fires_frame env cell k H) as (_ & _ & _ & -> & -> & _).
  exists (elm_make_spawn env (compilation_unit k cell) (set_code [] k)).
  split; [exact Hsp|]. split; [|split; [|split]].
  - cbn [elm_make_spawn files_seen]. unfold staged, files_after_copy.
    rewrite Hm, Hc. change (infile (set_code [] k)) with (infile k).
    change (manifest_copy (set_code [] k)) with (manifest_copy k).
    rewrite lookup_insert_ne by done. apply lookup_insert_eq.
  - apply lookup_insert_eq.
  - cbn [elm_make_spawn files_seen]. unfold staged, files_after_copy.
    rewrite Hm, Hc. change (infile (set_code [] k)) with (infile k).
    change (manifest_copy (set_code [] k)) with (manifest_copy k).
    rewrite !lookup_insert_ne by done. reflexivity.
  - rewrite Hfiles. change (infile (set_code [] k)) with (infile k).
    change (outfile (set_code [] k)) with (outfile k).
    by rewrite !swept_other by done.
Qed.

Lemma manifest_staged_for_compiler_witness :
  ∃ s, spawned (snd (do_execute (Stub.with_manifest "{}" (Sample.compiles "var x = 1;"))
                       marker Sample.pending))
       = spawned Sample.pending ++ [s]
    ∧ files_seen s !! manifest_copy Sample.pending = Some "{}"
    ∧ files_seen s !! infile Sample.pending
      = Some (compilation_unit Sample.pending marker)
    ∧ files_seen s !! outfile Sample.pending = files Sample.pending !! outfile Sample.pending
    ∧ files (snd (do_execute (Stub.with_manifest "{}" (Sample.compiles "var x = 1;"))
                    marker Sample.pending)) !! manifest_copy Sample.pending
      = fst (elm_make (Stub.with_manifest "{}" (Sample.compiles "var x = 1;"))
               (compilation_unit Sample.pending marker) Sample.pending)
        !! manifest_copy Sample.pending.
Proof.
  apply (manifest_staged_for_compiler
           (Stub.with_manifest "{}" (Sample.compiles "var x = 1;"))
           marker Sample.pending "{}"); reflexivity.
Defined.

Lemma join_snoc sep l c :
  Py.join sep (l ++ [c])
  = match l with [] => c | _ => Py.join sep l +:+ sep +:+ c end.
Proof.
  induction l as [|x l IH]; [reflexivity|].
  destruct l as [|y l]; [reflexivity|].
  change (x +:+ sep +:+ Py.join sep ((y :: l) ++ [c])
          = (x +:+ sep +:+ Py.join sep (y :: l)) +:+ sep +:+ c).
  rewrite IH. by rewrite !append_assoc.
Qed.

(** X11.  The compilation unit of a cell that fires the trigger is the
    cell itself when nothing is pending, and otherwise the pending cells
    joined by line breaks, a line break, and the cell; its last line is the
    marker, so the marker comment is part of what the compiler reads. *)
Theorem compilation_unit_ends_with_marker (cell : string) (k : ElmKernel) :
  cell_triggers cell = true →
  compilation_unit k cell
  = match _code k with
    | [] => cell
    | _ => Py.join Py.nl (_code k) +:+ Py.nl +:+ cell
    end
  ∧ (compilation_unit k cell = marker
     ∨ ∃ before, compilation_unit k cell = before +:+ Py.nl +:+ marker).
Proof.
  intros H. unfold compilation_unit. rewrite join_snoc. split; [done|].
  apply cell_triggers_iff in H as [->|[pre ->]]; destruct (_code k) as [|x l].
  - by left.
  - right. by eexists.
  - right. by exists pre.
  - right. exists (Py.join Py.nl (x :: l) +:+ Py.nl +:+ pre).
    by rewrite !append_assoc.
Qed.

Lemma compilation_unit_ends_with_marker_witness :
  compilation_unit Sample.pending marker
  = match _code Sample.pending with
    | [] => marker
    | _ => Py.join Py.nl (_code Sample.pending) +:+ Py.nl +:+ marker
    end
  ∧ (compilation_unit Sample.pending marker = marker
     ∨ ∃ before, compilation_unit Sample.pending marker = before +:+ Py.nl +:+ marker).
Proof.
  apply (compilation_unit_ends_with_marker marker Sample.pending). reflexivity.
Defined.



(** X13.  Whatever is done under [_tempfile], it returns or raises what
    that body returns or raises, after the removal of the file of that name
    in the scratch directory has been attempted — whether the body created
    it or raised.  The file is gone unless it was there and could not be
    removed, in which case the failure is ignored and the file stays; every
    other file, the buffer, the messages and the processes are as the body
    left them. *)
Theorem tempfile_removes_on_every_exit
    {A : Type} (env : Env) (filename : string) (body : string → M A) (k : ElmKernel) :
  let path := Py.os_path_join (_tempdir k) filename in
  let k' := snd (_tempfile env filename body k) in
  fst (_tempfile env filename body k) = fst (body path k)
  ∧ (remove_error env path = None → files k' !! path = None)
  ∧ (is_Some (remove_error env path) →
     files k' !! path = files (snd (body path k)) !! path)
  ∧ (∀ other, other ≠ path → files k' !! other = files (snd (body path k)) !! other)
  ∧ _code k' = _code (snd (body path k))
  ∧ iopub k' = iopub (snd (body path k))
  ∧ spawned k' = spawned (snd (body path k)).
Proof.
  intros path k'. unfold k'. rewrite tempfile_spec. cbn [fst snd].
  fold path. cbn [files set_files _code iopub spawned]. repeat split.
  - intros Hrm. by apply swept_removed.
  - intros [texts Hrm]. unfold swept. rewrite Hrm.
    destruct (files (snd (body path k)) !! path) eqn:E; exact E.
  - intros other Hne. by apply swept_other.
Qed.

End Staging.
